(** * god-like: a chainable request/response facade over a web framework

    A shallow embedding of [god_like/request.py], [god_like/response.py] and
    [GodLike.listen] from [god_like/godlike.py].

    Python objects that are mutated in place (the response facade, the
    process-wide [sys] streams) live in an explicit store and the methods are
    computations in a state-and-exception monad: an exception leaves the store
    as it was when it was raised.  The services the facade calls but does not
    implement (the MIME table, the status-phrase table, the JSON serialiser and
    the file system) are gathered in a [Platform] record. *)

From Stdlib Require Import ZArith Ascii String List.
From stdpp Require Import gmap strings pretty list.

(** ** Python strings *)

Module Py.

(** The double quote and the line feed, by character code. *)
Definition dquote : string := String "034"%char EmptyString.
Definition nl : string := String "010"%char EmptyString.

(** [c in s] for a single character [c]. *)
Fixpoint has_char (c : ascii) (s : string) : bool :=
  match s with
  | EmptyString => false
  | String d s' => if Ascii.eqb d c then true else has_char c s'
  end.

(** [sub in s]. *)
Fixpoint contains (sub s : string) : bool :=
  match s with
  | EmptyString => String.prefix sub s
  | String _ s' => String.prefix sub s || contains sub s'
  end.

Definition lower_char (c : ascii) : ascii :=
  let n := nat_of_ascii c in
  if (65 <=? n)%nat && (n <=? 90)%nat then ascii_of_nat (n + 32) else c.

(** [s.lower()] on ASCII text. *)
Fixpoint lower (s : string) : string :=
  match s with
  | EmptyString => EmptyString
  | String c s' => String (lower_char c) (lower s')
  end.

Definition upper_char (c : ascii) : ascii :=
  let n := nat_of_ascii c in
  if (97 <=? n)%nat && (n <=? 122)%nat then ascii_of_nat (n - 32) else c.

(** [s.upper()] on ASCII text. *)
Fixpoint upper (s : string) : string :=
  match s with
  | EmptyString => EmptyString
  | String c s' => String (upper_char c) (upper s')
  end.

(** [s.split(sep)] for a one-character separator. *)
Fixpoint split (sep : ascii) (s : string) : list string :=
  match s with
  | EmptyString => [EmptyString]
  | String c s' =>
      if Ascii.eqb c sep then EmptyString :: split sep s'
      else match split sep s' with
           | w :: ws => String c w :: ws
           | [] => [String c EmptyString]
           end
  end.

(** [sep.join(parts)]. *)
Fixpoint join (sep : string) (parts : list string) : string :=
  match parts with
  | [] => EmptyString
  | [w] => w
  | w :: ws => w +:+ sep +:+ join sep ws
  end.

(** [s.endswith(suffix)]. *)
Definition endswith (suffix s : string) : bool :=
  let n := String.length s in
  let k := String.length suffix in
  (k <=? n)%nat && String.eqb (String.substring (n - k) k s) suffix.

(** [s[:-k]] for [k] positive. *)
Definition drop_last (k : nat) (s : string) : string :=
  String.substring 0 (String.length s - k) s.

(** [a or b] on strings: the empty string is falsy. *)
Definition str_or (a b : string) : string :=
  match a with
  | EmptyString => b
  | _ => a
  end.

(** [str(n)] for an integer. *)
Definition str (n : Z) : string := pretty n.

(** [list(reversed(l))[k:]]. *)
Definition reversed_from {A} (k : nat) (l : list A) : list A :=
  drop k (reverse l).

End Py.

(** ** Exceptions and the state-and-exception monad *)

Inductive exn : Type :=
| ValueError
| FileNotFoundError
| AttributeError.

Inductive outcome (A : Type) : Type :=
| Return (a : A)
| Raise (e : exn).
Arguments Return {A} a.
Arguments Raise {A} e.

(** A computation over a store of type [S]: the store after it, and either the
    value returned or the exception raised. *)
Definition M (S A : Type) : Type := S -> S * outcome A.

Definition ret {S A} (a : A) : M S A := fun s => (s, Return a).

Definition bind {S A B} (m : M S A) (k : A -> M S B) : M S B :=
  fun s =>
    match m s with
    | (s', Return a) => k a s'
    | (s', Raise e) => (s', Raise e)
    end.

Definition raise {S A} (e : exn) : M S A := fun s => (s, Raise e).

Notation "'do' x <- m ; k" := (bind m (fun x => k))
  (at level 10, x name, m at level 100, k at level 200).
Notation "m ;;; k" := (bind m (fun _ => k))
  (at level 100, k at level 200, right associativity).

(** ** The framework's header container

    The wrapped framework keeps headers as an ordered list of pairs whose keys
    compare case-insensitively. *)

Module Headers.

Definition t : Type := list (string * string).

Definition same_key (a b : string) : bool :=
  String.eqb (Py.lower a) (Py.lower b).

(** [headers.get(key)]: the value of the first entry with this key. *)
Fixpoint get (key : string) (h : t) : option string :=
  match h with
  | [] => None
  | (k, v) :: rest => if same_key k key then Some v else get key rest
  end.

(** The list after a write: the first entry with this key is replaced and
    the later ones are removed; without one the pair is appended. *)
Fixpoint replace (key value : string) (h : t) : t :=
  match h with
  | [] => [(key, value)]
  | (k, v) :: rest =>
      if same_key k key
      then (key, value) :: List.filter (fun e => negb (same_key (fst e) key)) rest
      else (k, v) :: replace key value rest
  end.

(** A header value may hold neither a carriage return nor a line feed. *)
Definition valid_value (value : string) : bool :=
  negb (Py.has_char "013" value || Py.has_char "010" value).

(** [headers[key] = value]: a value with a line break is refused with
    [ValueError] and the headers stay as they are. *)
Definition set (key value : string) (h : t) : outcome t :=
  if valid_value value then Return (replace key value h) else Raise ValueError.

(** [headers.getlist(key)]: the values of all entries with this key, in
    their order. *)
Fixpoint getlist (key : string) (h : t) : list string :=
  match h with
  | [] => []
  | (k, v) :: rest =>
      if same_key k key then v :: getlist key rest else getlist key rest
  end.

End Headers.

(** ** The native response and the object store *)

Record FlaskResponse : Type := mkFlaskResponse {
  status_code : Z;
  headers : Headers.t;
  data : string
}.

Definition with_status_code (c : Z) (r : FlaskResponse) : FlaskResponse :=
  mkFlaskResponse c (headers r) (data r).
Definition with_headers (h : Headers.t) (r : FlaskResponse) : FlaskResponse :=
  mkFlaskResponse (status_code r) h (data r).
Definition with_data (d : string) (r : FlaskResponse) : FlaskResponse :=
  mkFlaskResponse (status_code r) (headers r) d.

(** A [Response] facade is an object with one attribute, [flask_response];
    the store maps the address of each facade to the state of the native
    response it holds. *)
Definition loc : Type := positive.
Abbreviation Store := (gmap loc FlaskResponse).

(** [self.flask_response], read. *)
Definition flask_response (self : loc) : M Store FlaskResponse :=
  fun st =>
    match st !! self with
    | Some r => (st, Return r)
    | None => (st, Raise AttributeError)
    end.

(** An assignment to an attribute of [self.flask_response]. *)
Definition assign (self : loc) (f : FlaskResponse -> FlaskResponse)
  : M Store unit :=
  do r <- flask_response self;
  fun st => (<[self := f r]> st, Return tt).

(** [self.flask_response.headers[key] = value]. *)
Definition setitem (self : loc) (key value : string) : M Store unit :=
  do r <- flask_response self;
  match Headers.set key value (headers r) with
  | Return h => fun st => (<[self := with_headers h r]> st, Return tt)
  | Raise e => raise e
  end.

(** [self.flask_response.content_type = v] writes the Content-Type header. *)
Definition set_content_type (self : loc) (v : string) : M Store unit :=
  setitem self "Content-Type" v.

(** [self.flask_response.data = d] stores the body and then writes its
    length, in bytes, as the Content-Length header. *)
Definition set_data (self : loc) (d : string) : M Store unit :=
  assign self (with_data d) ;;;
  setitem self "Content-Length" (Py.str (Z.of_nat (String.length d))).

(** The native response [FlaskResponse()] builds: status 200, an empty body,
    and the Content-Type of the framework's default MIME type. *)
Definition new_FlaskResponse : FlaskResponse :=
  mkFlaskResponse 200 [("Content-Type", "text/html; charset=utf-8")] EmptyString.

(** ** Values a handler may send *)

#[local] Set Warnings "-register-all".

Inductive value : Type :=
| VNone
| VBool (b : bool)
| VInt (n : Z)
| VStr (s : string)
| VList (items : list value)
| VDict (items : list (string * value)).

(** ** Services of the language runtime and the operating system *)

Record Platform : Type := mkPlatform {
  (** [mimetypes.types_map]: extension, with its leading dot, to MIME type *)
  types_map : gmap string string;
  (** [http.HTTPStatus]: the phrase of each member, by code *)
  http_status : gmap Z string;
  (** [json.dumps] *)
  json_dumps : value -> string;
  (** [Path(p).read_text()] *)
  read_text : string -> outcome string;
  (** [Path(p).name] and [Path(p).suffix] *)
  path_name : string -> string;
  path_suffix : string -> string
}.

(** ** The response facade ([god_like/response.py]) *)

Module Response.
Section Methods.

Context (py : Platform).

(** The body of the redirect notice, with [path] put in twice as it is. *)
Definition redirect_notice (path : string) : string :=
  Py.nl +:+ "<!DOCTYPE HTML PUBLIC " +:+ Py.dquote
    +:+ "-//W3C//DTD HTML 3.2 Final//EN" +:+ Py.dquote +:+ ">" +:+ Py.nl
    +:+ "<title>Redirecting...</title>" +:+ Py.nl
    +:+ "<h1>Redirecting...</h1>" +:+ Py.nl
    +:+ "<p>You should be redirected automatically to target URL: <a href="
    +:+ Py.dquote +:+ path +:+ Py.dquote +:+ ">" +:+ path
    +:+ "</a>.  If not click the link." +:+ Py.nl.

Definition content_type (self : loc) (content_type : string) : M Store loc :=
  let content_type :=
    if negb (Py.has_char "/" content_type)
    then default "text/html" (types_map py !! ("." +:+ content_type))
    else content_type in
  set_content_type self content_type ;;;
  ret self.

Definition get (self : loc) (field : string) : M Store (option string) :=
  do r <- flask_response self;
  ret (Headers.get field (headers r)).

Definition json (self : loc) (obj : value) : M Store loc :=
  set_content_type self "application/json" ;;;
  set_data self (json_dumps py obj) ;;;
  ret self.

Definition redirect (self : loc) (path : string) : M Store loc :=
  assign self (with_status_code 302) ;;;
  set_data self (redirect_notice path) ;;;
  content_type self "text/html" ;;;
  setitem self "Location" path ;;;
  ret self.

Definition send (self : loc) (body : value) : M Store loc :=
  match body with
  | VStr text =>
      set_data self text ;;;
      do ct <- get self "Content-Type";
      match ct with
      | None => content_type self "text/html" ;;; ret self
      | Some _ => ret self
      end
  | _ => json self body
  end.

(** A [str] argument is first wrapped in [Path]; the model takes the path
    in either form as its text. *)
Definition send_file (self : loc) (file_path : string) : M Store loc :=
  do text <- (fun st => (st, read_text py file_path));
  set_data self text ;;;
  set_content_type self
    (default "text/html" (types_map py !! path_suffix py file_path)) ;;;
  ret self.

Definition status (self : loc) (code : Z) : M Store loc :=
  assign self (with_status_code code) ;;;
  ret self.

(** [http.HTTPStatus(code).phrase]: the lookup of a code that is no member
    raises [ValueError]. *)
Definition HTTPStatus_phrase (code : Z) : M Store string :=
  match http_status py !! code with
  | Some phrase => ret phrase
  | None => raise ValueError
  end.

Definition send_status (self : loc) (code : Z) : M Store loc :=
  do receiver <- status self code;
  do phrase <- HTTPStatus_phrase code;
  send receiver (VStr (Py.str_or phrase (Py.str code))) ;;;
  ret self.

(** The loop of [set_header] over the items of [fields], in their order. *)
Fixpoint set_header_items (self : loc) (fields : list (string * string))
  : M Store unit :=
  match fields with
  | [] => ret tt
  | (field, v) :: rest =>
      setitem self field v ;;;
      set_header_items self rest
  end.

Definition set_header (self : loc) (fields : list (string * string))
  : M Store loc :=
  set_header_items self fields ;;;
  ret self.

Definition download (self : loc) (path : string) (filename : option string)
  : M Store loc :=
  let shown :=
    match filename with
    | Some f => Py.str_or f (path_name py path)
    | None => path_name py path
    end in
  set_header self [("Content-Disposition", "attachment; filename=" +:+ shown)] ;;;
  send_file self path ;;;
  ret self.

End Methods.
End Response.

(** ** The request facade ([god_like/request.py]) *)

(** The native request, by the attributes the facade reads.  Its
    [accept_mimetypes] object is given by its membership test
    [value in accept_mimetypes]. *)
Record FlaskRequest : Type := mkFlaskRequest {
  scheme : string;
  request_headers : Headers.t;
  server : option (string * option Z);
  accept_mimetypes : string -> outcome bool
}.

(** The framework's [host] attribute: the Host header, or else the server
    address, less the port only when it is the default one of the scheme. *)
Definition flask_host (r : FlaskRequest) : string :=
  let host :=
    match Headers.get "host" (request_headers r) with
    | Some h => h
    | None =>
        match server r with
        | Some (name, Some port) => name +:+ ":" +:+ Py.str port
        | Some (name, None) => name
        | None => EmptyString
        end
    end in
  if (String.eqb (scheme r) "http" || String.eqb (scheme r) "ws")
       && Py.endswith ":80" host
  then Py.drop_last 3 host
  else if (String.eqb (scheme r) "https" || String.eqb (scheme r) "wss")
            && Py.endswith ":443" host
  then Py.drop_last 4 host
  else host.

(** The membership test of the framework's MIME accept list, for media ranges
    without parameters: a range without a slash matches nothing, a value
    without a slash is refused, and [*] matches any type or subtype. *)
Module MIMEAccept.

Definition normalize (x : string) : string * string :=
  match Py.split "/" (Py.lower x) with
  | ty :: rest => (ty, Py.join "/" rest)
  | [] => (EmptyString, EmptyString)
  end.

Definition value_matches (v item : string) : outcome bool :=
  if negb (Py.has_char "/" item) then Return false
  else if negb (Py.has_char "/" v) then Raise ValueError
  else
    let '(vt, vs) := normalize v in
    let '(it, si) := normalize item in
    if String.eqb vt "*" && negb (String.eqb vs "*") then Raise ValueError
    else if String.eqb it "*" && negb (String.eqb si "*") then Return false
    else Return
      ((String.eqb it "*" && String.eqb si "*")
       || (String.eqb vt "*" && String.eqb vs "*")
       || (String.eqb it vt
           && (String.eqb si "*" || String.eqb vs "*" || String.eqb si vs))).

Fixpoint contains (items : list string) (v : string) : outcome bool :=
  match items with
  | [] => Return false
  | item :: rest =>
      match value_matches v item with
      | Return true => Return true
      | Return false => contains rest v
      | Raise e => Raise e
      end
  end.

End MIMEAccept.

(** A rule of the framework's URL map, and the native request with the
    attributes it gets from the connection and from the rule that matched. *)
Record Rule : Type := mkRule {
  rule : string;
  methods : gset string;
  endpoint : string
}.

Record RoutedRequest : Type := mkRoutedRequest {
  native :> FlaskRequest;
  remote_addr : option string;
  url_rule : option Rule
}.

Module Request.
Section Methods.

Context (py : Platform).

Definition ip (self : RoutedRequest) : option string :=
  match Headers.getlist "X-Forwarded-For" (request_headers self) with
  | first :: _ => Some first
  | [] => remote_addr self
  end.

Definition protocol (self : FlaskRequest) : string := scheme self.

(** [url_rule.endpoint]; without a matched rule the attribute access fails. *)
Definition route (self : RoutedRequest) : outcome string :=
  match url_rule self with
  | Some matched => Return (endpoint matched)
  | None => Raise AttributeError
  end.

Definition secure (self : FlaskRequest) : bool :=
  String.eqb (protocol self) "https".

Definition get (self : FlaskRequest) (header : string) : option string :=
  Headers.get header (request_headers self).

Definition host (self : FlaskRequest) : string := flask_host self.

Definition hostname (self : FlaskRequest) : string := host self.

Definition subdomains (self : FlaskRequest) : list string :=
  Py.reversed_from 2 (Py.split "." (hostname self)).

Definition accepts (self : FlaskRequest) (media_type : string) : outcome bool :=
  let media_type :=
    if negb (Py.has_char "/" media_type)
    then default media_type (types_map py !! media_type)
    else media_type in
  accept_mimetypes self media_type.

End Methods.
End Request.

(** ** [GodLike.listen] and the process-wide streams ([god_like/godlike.py]) *)

Module GodLike.

(** A file object: where it writes, whether it has been closed, and what
    has reached it. *)
Record file : Type := mkFile {
  target : string;
  closed : bool;
  written : list string
}.

(** The part of the process [listen] touches: the file objects by
    identity, and the two objects [sys.stdout] and [sys.stderr] name. *)
Record Process : Type := mkProcess {
  objects : gmap nat file;
  sys_stdout : nat;
  sys_stderr : nat
}.

Definition devnull : string := "/dev/null".

(** [open(path, "w")]: a new open file object. *)
Definition open_w (path : string) : M Process nat :=
  fun p =>
    let f := fresh (dom (objects p)) in
    (mkProcess (<[f := mkFile path false []]> (objects p))
               (sys_stdout p) (sys_stderr p),
     Return f).

(** [f.close()]. *)
Definition close (f : nat) (p : Process) : Process :=
  mkProcess (alter (fun o => mkFile (target o) true (written o)) f (objects p))
            (sys_stdout p) (sys_stderr p).

(** [with open(path, "w") as f: body]: the file is closed when the block is
    left, by its end or by an exception. *)
Definition with_open {A} (path : string) (body : nat -> M Process A)
  : M Process A :=
  do f <- open_w path;
  fun p => let '(p', r) := body f p in (close f p', r).

(** [f.write(text)]: a closed file refuses it; the null device drops it. *)
Definition write (f : nat) (text : string) : M Process unit :=
  fun p =>
    match objects p !! f with
    | None => (p, Raise AttributeError)
    | Some o =>
        if closed o then (p, Raise ValueError)
        else if String.eqb (target o) devnull then (p, Return tt)
        else (mkProcess
                (<[f := mkFile (target o) false (written o ++ [text])]> (objects p))
                (sys_stdout p) (sys_stderr p),
              Return tt)
    end.

Definition get_stdout : M Process nat := fun p => (p, Return (sys_stdout p)).
Definition get_stderr : M Process nat := fun p => (p, Return (sys_stderr p)).
Definition set_stdout (f : nat) : M Process unit :=
  fun p => (mkProcess (objects p) f (sys_stderr p), Return tt).
Definition set_stderr (f : nat) : M Process unit :=
  fun p => (mkProcess (objects p) (sys_stdout p) f, Return tt).

(** [print(text)] and a log line, as the server would issue them. *)
Definition print (text : string) : M Process unit :=
  do out <- get_stdout; write out text.
Definition log (text : string) : M Process unit :=
  do err <- get_stderr; write err text.

Section Listen.

(** The framework's blocking server loop, as what it does to the
    process while it serves. *)
Context (run_simple : string -> Z -> M Process unit).

Definition listen (port : Z) (hostname : string) (verbose : bool)
  : M Process unit :=
  do saved <-
    (if negb verbose then
       do stdout <- get_stdout;
       do stderr <- get_stderr;
       with_open devnull (fun null => set_stdout null ;;; set_stderr null) ;;;
       ret (Some (stdout, stderr))
     else ret None);
  run_simple hostname port ;;;
  match saved with
  | Some (stdout, stderr) => set_stdout stdout ;;; set_stderr stderr
  | None => ret tt
  end.

End Listen.

(** *** Registration of handlers *)

(** A handler [func(req, res)], with its [__name__]. *)
Record Func : Type := mkFunc {
  name : string;
  call : RoutedRequest -> loc -> M Store value
}.

(** The wrapped application: the rules of its URL map, latest first, and
    its view functions by endpoint. *)
Record Flask : Type := mkFlask {
  url_map : list Rule;
  view_functions : gmap string (RoutedRequest -> M Store FlaskResponse)
}.

(** What a registration comes to: the application after it; the framework's
    [AssertionError] for an endpoint that already has a view, raised once the
    rule is in the map; or the error of a pattern the framework does not
    take, which leaves the application as it was. *)
Inductive registration : Type :=
| Registered (app : Flask)
| AssertionError (app : Flask) (taken : string)
| Refused (e : exn) (app : Flask).

(** The methods the framework stores for a rule: those given, in upper
    case, with OPTIONS, and with HEAD when GET is among them. *)
Definition rule_methods (verbs : list string) : gset string :=
  let given : gset string := list_to_set (Py.upper <$> verbs) in
  if decide ("GET" ∈ given)
  then given ∪ {["OPTIONS"]} ∪ {["HEAD"]}
  else given ∪ {["OPTIONS"]}.

Section Views.

(** The native response [FlaskResponse()] builds. *)
Context (fresh_response : FlaskResponse).

(** Whether the framework takes a pattern as a rule: it refuses one that
    does not start with a slash, and one it cannot parse. *)
Context (rule_ok : string -> bool).

(** [Response()]: a new facade holding a new native response. *)
Definition new_Response : M Store loc :=
  fun st =>
    let self := fresh (dom st) in
    (<[self := fresh_response]> st, Return self).

(** The view every verb method registers: the result of [func] is dropped
    and the native response behind the facade is the reply. *)
Definition view (func : Func) (request : RoutedRequest)
  : M Store FlaskResponse :=
  do response <- new_Response;
  call func request response ;;;
  flask_response response.

(** [app.route(rule, methods=..., endpoint=...)(view)]. *)
Definition add_url_rule (app : Flask) (route : string) (verbs : list string)
    (endpoint : string) (v : RoutedRequest -> M Store FlaskResponse)
  : registration :=
  if negb (rule_ok route) then Refused ValueError app
  else
    let rules := mkRule route (rule_methods verbs) endpoint :: url_map app in
    match view_functions app !! endpoint with
    | Some _ => AssertionError (mkFlask rules (view_functions app)) endpoint
    | None => Registered (mkFlask rules (<[endpoint := v]> (view_functions app)))
    end.

(** The body shared by the seven verb methods. *)
Definition register (verb : string) (app : Flask) (route : string) (func : Func)
  : registration :=
  add_url_rule app route [verb] (name func) (view func).

Definition get := register "GET".
Definition put := register "PUT".
Definition delete := register "DELETE".
Definition patch := register "PATCH".
Definition head := register "HEAD".
Definition options := register "OPTIONS".

End Views.

End GodLike.

(** ** A concrete platform

    Entries of the runtime's tables, a serialiser for values whose strings are
    printable ASCII, and a file system with one file. *)

Module Std.

Definition mime_table : gmap string string :=
  list_to_map
    [ (".json", "application/json"); (".html", "text/html");
      (".htm", "text/html"); (".txt", "text/plain"); (".css", "text/css");
      (".xml", "text/xml"); (".csv", "text/csv"); (".png", "image/png");
      (".jpg", "image/jpeg"); (".gif", "image/gif"); (".svg", "image/svg+xml");
      (".pdf", "application/pdf"); (".zip", "application/zip") ].

Definition status_table : gmap Z string :=
  list_to_map
    [ (100, "Continue"); (101, "Switching Protocols"); (102, "Processing");
      (200, "OK"); (201, "Created"); (202, "Accepted");
      (203, "Non-Authoritative Information"); (204, "No Content");
      (205, "Reset Content"); (206, "Partial Content"); (207, "Multi-Status");
      (208, "Already Reported"); (226, "IM Used");
      (300, "Multiple Choices"); (301, "Moved Permanently"); (302, "Found");
      (303, "See Other"); (304, "Not Modified"); (305, "Use Proxy");
      (307, "Temporary Redirect"); (308, "Permanent Redirect");
      (400, "Bad Request"); (401, "Unauthorized"); (402, "Payment Required");
      (403, "Forbidden"); (404, "Not Found"); (405, "Method Not Allowed");
      (406, "Not Acceptable"); (407, "Proxy Authentication Required");
      (408, "Request Timeout"); (409, "Conflict"); (410, "Gone");
      (411, "Length Required"); (412, "Precondition Failed");
      (413, "Request Entity Too Large"); (414, "Request-URI Too Long");
      (415, "Unsupported Media Type");
      (416, "Requested Range Not Satisfiable"); (417, "Expectation Failed");
      (421, "Misdirected Request"); (422, "Unprocessable Entity");
      (423, "Locked"); (424, "Failed Dependency"); (426, "Upgrade Required");
      (428, "Precondition Required"); (429, "Too Many Requests");
      (431, "Request Header Fields Too Large");
      (451, "Unavailable For Legal Reasons");
      (500, "Internal Server Error"); (501, "Not Implemented");
      (502, "Bad Gateway"); (503, "Service Unavailable");
      (504, "Gateway Timeout"); (505, "HTTP Version Not Supported");
      (506, "Variant Also Negotiates"); (507, "Insufficient Storage");
      (508, "Loop Detected"); (510, "Not Extended");
      (511, "Network Authentication Required") ]%Z.

Definition escape_char (c : ascii) : string :=
  if Ascii.eqb c "034" then "\" +:+ Py.dquote
  else if Ascii.eqb c "\" then "\\"
  else if Ascii.eqb c "010" then "\n"
  else String c EmptyString.

Fixpoint escape (s : string) : string :=
  match s with
  | EmptyString => EmptyString
  | String c s' => escape_char c +:+ escape s'
  end.

Definition quoted (s : string) : string :=
  Py.dquote +:+ escape s +:+ Py.dquote.

(** [json.dumps] with its default separators. *)
Fixpoint dumps (v : value) : string :=
  match v with
  | VNone => "null"
  | VBool true => "true"
  | VBool false => "false"
  | VInt n => Py.str n
  | VStr s => quoted s
  | VList items =>
      "[" +:+ Py.join ", " (map dumps items) +:+ "]"
  | VDict items =>
      "{" +:+ Py.join ", "
                (map (fun kv => match kv with
                                | (k, x) => quoted k +:+ ": " +:+ dumps x
                                end) items)
          +:+ "}"
  end.

Definition name_of (p : string) : string :=
  List.last (Py.split "/" p) EmptyString.

(** The final component from its last dot on, when that dot is neither its
    first nor its last character. *)
Definition suffix_of (p : string) : string :=
  let parts := Py.split "." (name_of p) in
  let ext := List.last parts EmptyString in
  match Py.join "." (List.removelast parts), ext with
  | EmptyString, _ => EmptyString
  | _, EmptyString => EmptyString
  | _, _ => "." +:+ ext
  end.

Definition disk : gmap string string :=
  {[ "static/index.html" := "<h1>Home</h1>" ]}.

Definition read (p : string) : outcome string :=
  match disk !! p with
  | Some text => Return text
  | None => Raise FileNotFoundError
  end.

Definition py : Platform :=
  mkPlatform mime_table status_table dumps read name_of suffix_of.

(** A response with status 200, an empty body and its headers removed, at
    address 1; and a response as it is built, at the same address. *)
Definition blank : FlaskResponse := mkFlaskResponse 200 [] EmptyString.
Definition res : loc := 1%positive.
Definition store : Store := {[ res := blank ]}.
Definition new_store : Store := {[ res := new_FlaskResponse ]}.

(** The first check of the framework on a pattern. *)
Definition leading_slash (route : string) : bool :=
  match route with
  | String "/" _ => true
  | _ => false
  end.

End Std.

(** * Properties *)

(** ** Strings *)

Section PyFacts.

Lemma has_char_app c a b :
  Py.has_char c (a +:+ b) = Py.has_char c a || Py.has_char c b.
Proof.
  induction a as [|d a IH]; simpl; [done|].
  destruct (Ascii.eqb d c); [done|apply IH].
Qed.

(** [c in s] holds exactly when [s] can be cut around an occurrence of [c]. *)
Lemma has_char_spec c s :
  Py.has_char c s = true <-> exists a b, s = a +:+ String c b.
Proof.
  split.
  - induction s as [|d s IH]; simpl; [done|].
    destruct (Ascii.eqb_spec d c) as [->|Hne].
    + intros _. by exists EmptyString, s.
    + intros H. destruct (IH H) as (a & b & ->). by exists (String d a), b.
  - intros (a & b & ->). rewrite has_char_app. simpl.
    rewrite Ascii.eqb_refl. apply orb_true_r.
Qed.

Lemma prefix_app sub b : String.prefix sub (sub +:+ b) = true.
Proof.
  induction sub as [|c sub IH]; simpl; [by destruct b|].
  destruct (ascii_dec c c); [apply IH|done].
Qed.

Lemma contains_prefix sub s :
  String.prefix sub s = true -> Py.contains sub s = true.
Proof.
  intros H. destruct s as [|c s]; [exact H|].
  cbn [Py.contains]. by rewrite H.
Qed.

(** A string contains whatever was concatenated into it. *)
Lemma contains_app sub a b : Py.contains sub (a +:+ sub +:+ b) = true.
Proof.
  induction a as [|c a IH].
  - change (Py.contains sub (sub +:+ b) = true).
    apply contains_prefix, prefix_app.
  - change (String.prefix sub (String c (a +:+ sub +:+ b))
            || Py.contains sub (a +:+ sub +:+ b) = true).
    rewrite IH. apply orb_true_r.
Qed.

Lemma split_nonempty sep s : Py.split sep s <> [].
Proof.
  destruct s as [|c s]; simpl; [done|].
  destruct (Ascii.eqb c sep); [done|]. by destruct (Py.split sep s).
Qed.

(** Splitting a word that has no separator gives the word. *)
Lemma split_word sep w : Py.has_char sep w = false -> Py.split sep w = [w].
Proof.
  induction w as [|c w IH]; simpl; [done|].
  destruct (Ascii.eqb c sep); [done|]. intros H. by rewrite (IH H).
Qed.

Lemma split_word_sep sep w rest :
  Py.has_char sep w = false ->
  Py.split sep (w +:+ String sep rest) = w :: Py.split sep rest.
Proof.
  induction w as [|c w IH]; simpl.
  - intros _. by rewrite Ascii.eqb_refl.
  - destruct (Ascii.eqb c sep); [done|]. intros H. by rewrite (IH H).
Qed.

(** Splitting undoes joining, for words free of the separator. *)
Lemma split_join sep labels :
  labels <> [] ->
  Forall (fun w => Py.has_char sep w = false) labels ->
  Py.split sep (Py.join (String sep EmptyString) labels) = labels.
Proof.
  intros Hne Hall. induction Hall as [|w ws Hw Hws IH]; [done|].
  destruct ws as [|w' ws]; simpl.
  - by apply split_word.
  - change (w +:+ String sep EmptyString +:+ ?t) with (w +:+ String sep t).
    rewrite split_word_sep by done. f_equal. by apply IH.
Qed.

End PyFacts.

(** ** Headers *)

Section HeaderFacts.

Lemma same_key_eq a b :
  Headers.same_key a b = true <-> Py.lower a = Py.lower b.
Proof. apply String.eqb_eq. Qed.

Lemma same_key_refl a : Headers.same_key a a = true.
Proof. by apply same_key_eq. Qed.

Lemma same_key_other a b c :
  Headers.same_key a b = true -> Headers.same_key c b = false ->
  Headers.same_key a c = false.
Proof.
  intros Hab Hcb. apply not_true_is_false. intros Hac.
  apply same_key_eq in Hab, Hac.
  assert (Headers.same_key c b = true) by (apply same_key_eq; congruence).
  congruence.
Qed.

Lemma get_filter_other key key' h :
  Headers.same_key key key' = false ->
  Headers.get key
    (List.filter (fun e => negb (Headers.same_key (fst e) key')) h)
  = Headers.get key h.
Proof.
  intros Hne. induction h as [|[k v] h IH]; simpl; [done|].
  destruct (Headers.same_key k key') eqn:Hk; simpl.
  - by rewrite (same_key_other _ _ _ Hk Hne).
  - by rewrite IH.
Qed.

(** Reading back the header just written. *)
Lemma get_replace_same key v h : Headers.get key (Headers.replace key v h) = Some v.
Proof.
  induction h as [|[k w] h IH]; simpl.
  - by rewrite same_key_refl.
  - destruct (Headers.same_key k key) eqn:Hk; simpl.
    + by rewrite same_key_refl.
    + by rewrite Hk.
Qed.

(** Writing one header leaves the others as they read before. *)
Lemma get_replace_other key key' v h :
  Headers.same_key key key' = false ->
  Headers.get key (Headers.replace key' v h) = Headers.get key h.
Proof.
  intros Hne.
  assert (Headers.same_key key' key = false) as Hne'.
  { apply not_true_is_false. intros H. apply same_key_eq in H.
    assert (Headers.same_key key key' = true) by (by apply same_key_eq).
    congruence. }
  induction h as [|[k w] h IH]; simpl.
  - by rewrite Hne'.
  - destruct (Headers.same_key k key') eqn:Hk; simpl.
    + rewrite Hne', (same_key_other _ _ _ Hk Hne).
      by apply get_filter_other.
    + by rewrite IH.
Qed.

(** A valid value is written, any other is refused. *)
Lemma set_valid key v h :
  Headers.valid_value v = true ->
  Headers.set key v h = Return (Headers.replace key v h).
Proof. intros Hv. unfold Headers.set. by rewrite Hv. Qed.

Lemma set_invalid key v h :
  Headers.valid_value v = false -> Headers.set key v h = Raise ValueError.
Proof. intros Hv. unfold Headers.set. by rewrite Hv. Qed.

(** The digits of a number hold no character that is not a digit. *)
Lemma pretty_N_go_has_char c x s :
  (forall d, (d < 10)%N -> Ascii.eqb (pretty_N_char d) c = false) ->
  Py.has_char c (pretty_N_go x s) = Py.has_char c s.
Proof.
  intros Hc. revert s. induction (N.lt_wf_0 x) as [x _ IH]; intros s.
  assert (x = 0 \/ 0 < x)%N as [->|Hx] by lia.
  - by rewrite pretty_N_go_0.
  - rewrite pretty_N_go_step by done. rewrite IH by (by apply N.div_lt).
    cbn [Py.has_char]. rewrite Hc; [done|]. by apply N.mod_lt.
Qed.

Lemma str_of_nat_valid n : Headers.valid_value (Py.str (Z.of_nat n)) = true.
Proof.
  assert (forall c, (forall d, (d < 10)%N -> Ascii.eqb (pretty_N_char d) c = false) ->
            Py.has_char c (Py.str (Z.of_nat n)) = false) as Hfree.
  { intros c Hc. unfold Py.str, pretty, pretty_Z.
    destruct (Z.of_nat n) as [|p|p] eqn:Hn; [| |lia].
    - change (Py.has_char c "0") with
        (if Ascii.eqb (pretty_N_char 0) c then true else false).
      by rewrite (Hc 0%N) by lia.
    - unfold pretty, pretty_positive, pretty, pretty_N.
      destruct (decide (N.pos p = 0%N)); [done|].
      by rewrite pretty_N_go_has_char. }
  assert (forall c, c = "013"%char \/ c = "010"%char ->
            forall d, (d < 10)%N -> Ascii.eqb (pretty_N_char d) c = false) as Hdigit.
  { intros c Hc d Hd.
    assert (d = 0 \/ d = 1 \/ d = 2 \/ d = 3 \/ d = 4 \/ d = 5 \/ d = 6
            \/ d = 7 \/ d = 8 \/ d = 9)%N as Hcases by lia.
    destruct Hc as [-> | ->]; repeat (destruct Hcases as [-> | Hcases]; [done|]);
      by subst. }
  unfold Headers.valid_value.
  rewrite !Hfree by (apply Hdigit; auto). done.
Qed.

End HeaderFacts.

(** ** Running the response methods

    Each method, run on a store that holds the facade, comes to one update
    of the native response behind it, or to an error that leaves behind the
    writes made before it. *)

Section ResponseRuns.

Context (py : Platform).
Implicit Types (st : Store) (r : FlaskResponse) (self : loc).

(** The headers after the loop of [set_header] over valid values. *)
Definition merged (fields : list (string * string)) (h : Headers.t) : Headers.t :=
  fold_left (fun acc e => Headers.replace (fst e) (snd e) acc) fields h.

(** The headers the loop of [set_header] leaves, and how it ends: it stops
    at the first value the container refuses. *)
Fixpoint merged_until (fields : list (string * string)) (h : Headers.t)
  : Headers.t * outcome unit :=
  match fields with
  | [] => (h, Return tt)
  | (k, v) :: rest =>
      if Headers.valid_value v then merged_until rest (Headers.replace k v h)
      else (h, Raise ValueError)
  end.

(** The type [content_type] settles on. *)
Definition resolved (v : string) : string :=
  if Py.has_char "/" v then v
  else default "text/html" (types_map py !! ("." +:+ v)).

(** The Content-Length written with a body, and the native response after
    the body [d] has been assigned. *)
Definition content_length (d : string) : string :=
  Py.str (Z.of_nat (String.length d)).

Definition stored (d : string) r : FlaskResponse :=
  mkFlaskResponse (status_code r)
    (Headers.replace "Content-Length" (content_length d) (headers r)) d.

Lemma flask_response_run self st r :
  st !! self = Some r -> flask_response self st = (st, Return r).
Proof. intros H. unfold flask_response. by rewrite H. Qed.

Lemma assign_run self f st r :
  st !! self = Some r -> assign self f st = (<[self := f r]> st, Return tt).
Proof. intros H. unfold assign, bind. by rewrite (flask_response_run _ _ _ H). Qed.

Lemma assign_again self f st r :
  assign self f (<[self := r]> st) = (<[self := f r]> st, Return tt).
Proof.
  rewrite (assign_run self f _ r) by apply lookup_insert_eq.
  by rewrite insert_insert_eq.
Qed.

Lemma setitem_run self key v st r :
  st !! self = Some r ->
  setitem self key v st
  = if Headers.valid_value v
    then (<[self := with_headers (Headers.replace key v (headers r)) r]> st,
          Return tt)
    else (st, Raise ValueError).
Proof.
  intros H. unfold setitem, bind, Headers.set.
  rewrite (flask_response_run _ _ _ H). by destruct (Headers.valid_value v).
Qed.

Lemma setitem_again self key v st r :
  setitem self key v (<[self := r]> st)
  = if Headers.valid_value v
    then (<[self := with_headers (Headers.replace key v (headers r)) r]> st,
          Return tt)
    else (<[self := r]> st, Raise ValueError).
Proof.
  rewrite (setitem_run self key v _ r) by apply lookup_insert_eq.
  by rewrite insert_insert_eq.
Qed.

Lemma set_data_run self d st r :
  st !! self = Some r ->
  set_data self d st = (<[self := stored d r]> st, Return tt).
Proof.
  intros H. unfold set_data, bind. rewrite (assign_run _ _ _ _ H).
  rewrite setitem_again. fold (content_length d).
  unfold content_length at 1. by rewrite str_of_nat_valid.
Qed.

Lemma set_data_again self d st r :
  set_data self d (<[self := r]> st) = (<[self := stored d r]> st, Return tt).
Proof.
  rewrite (set_data_run self d _ r) by apply lookup_insert_eq.
  by rewrite insert_insert_eq.
Qed.

Lemma status_run self code st r :
  st !! self = Some r ->
  Response.status self code st
  = (<[self := with_status_code code r]> st, Return self).
Proof.
  intros H. unfold Response.status, bind. by rewrite (assign_run _ _ _ _ H).
Qed.

Lemma content_type_run self v st r :
  st !! self = Some r ->
  Response.content_type py self v st
  = if Headers.valid_value (resolved v)
    then (<[self := with_headers
                      (Headers.replace "Content-Type" (resolved v) (headers r)) r]> st,
          Return self)
    else (st, Raise ValueError).
Proof.
  intros H. unfold Response.content_type, bind, set_content_type.
  assert ((if negb (Py.has_char "/" v)
           then default "text/html" (types_map py !! ("." +:+ v)) else v)
          = resolved v) as -> by (unfold resolved; by destruct (Py.has_char "/" v)).
  rewrite (setitem_run _ _ _ _ _ H).
  by destruct (Headers.valid_value (resolved v)).
Qed.

Lemma content_type_html_again self st r :
  Response.content_type py self "text/html" (<[self := r]> st)
  = (<[self := with_headers
                 (Headers.replace "Content-Type" "text/html" (headers r)) r]> st,
     Return self).
Proof.
  rewrite (content_type_run _ _ _ r) by apply lookup_insert_eq.
  change (Headers.valid_value (resolved "text/html")) with true.
  cbn match. change (resolved "text/html") with "text/html".
  by rewrite insert_insert_eq.
Qed.

Lemma get_run self field st r :
  st !! self = Some r ->
  Response.get self field st = (st, Return (Headers.get field (headers r))).
Proof.
  intros H. unfold Response.get, bind. by rewrite (flask_response_run _ _ _ H).
Qed.

(** The native response after [json]. *)
Definition jsoned (obj : value) r : FlaskResponse :=
  stored (json_dumps py obj)
    (with_headers (Headers.replace "Content-Type" "application/json" (headers r)) r).

Lemma json_run self obj st r :
  st !! self = Some r ->
  Response.json py self obj st = (<[self := jsoned obj r]> st, Return self).
Proof.
  intros H. unfold Response.json, bind, set_content_type.
  rewrite (setitem_run _ _ _ _ _ H).
  change (Headers.valid_value "application/json") with true. cbn match.
  by rewrite set_data_again.
Qed.

Lemma merged_until_valid fields h :
  forallb Headers.valid_value (snd <$> fields) = true ->
  merged_until fields h = (merged fields h, Return tt).
Proof.
  revert h. induction fields as [|[k v] fields IH]; intros h; [done|].
  cbn [fmap list_fmap forallb snd merged_until merged fold_left fst].
  intros [Hv Hrest]%andb_true_iff. rewrite Hv. by apply IH.
Qed.

Lemma set_header_items_run self fields st r :
  st !! self = Some r ->
  Response.set_header_items self fields st
  = (<[self := with_headers (merged_until fields (headers r)).1 r]> st,
     (merged_until fields (headers r)).2).
Proof.
  revert st r. induction fields as [|[k v] fields IH]; intros st r H.
  - cbn. unfold ret. f_equal. symmetry. apply insert_id. by destruct r.
  - cbn [Response.set_header_items merged_until]. unfold bind.
    rewrite (setitem_run _ _ _ _ _ H).
    destruct (Headers.valid_value v).
    + rewrite (IH _ _ (lookup_insert_eq _ _ _)). by rewrite insert_insert_eq.
    + cbn. f_equal. symmetry. apply insert_id. by destruct r.
Qed.

Lemma set_header_run self fields st r :
  st !! self = Some r ->
  Response.set_header self fields st
  = (<[self := with_headers (merged_until fields (headers r)).1 r]> st,
     match (merged_until fields (headers r)).2 with
     | Return _ => Return self
     | Raise e => Raise e
     end).
Proof.
  intros H. unfold Response.set_header, bind.
  rewrite (set_header_items_run _ _ _ _ H).
  by destruct (merged_until fields (headers r)) as [h [[]|e]].
Qed.

(** The native response after [send] of a text. *)
Definition sent (text : string) r : FlaskResponse :=
  match Headers.get "Content-Type" (headers r) with
  | None =>
      with_headers
        (Headers.replace "Content-Type" "text/html" (headers (stored text r)))
        (stored text r)
  | Some _ => stored text r
  end.

Lemma send_text_run self text st r :
  st !! self = Some r ->
  Response.send py self (VStr text) st = (<[self := sent text r]> st, Return self).
Proof.
  intros H. unfold Response.send, bind.
  rewrite (set_data_run _ _ _ _ H).
  rewrite (get_run _ _ _ (stored text r)) by apply lookup_insert_eq.
  cbn [headers stored].
  rewrite get_replace_other by (vm_compute; reflexivity).
  unfold sent. destruct (Headers.get "Content-Type" (headers r)); [done|].
  unfold bind. by rewrite content_type_html_again.
Qed.

(** The native response [redirect] has built when it comes to write the
    Location header. *)
Definition redirecting (path : string) r : FlaskResponse :=
  let noticed := stored (Response.redirect_notice path) (with_status_code 302 r) in
  with_headers (Headers.replace "Content-Type" "text/html" (headers noticed))
    noticed.

Lemma redirect_run self path st r :
  st !! self = Some r ->
  Response.redirect py self path st
  = if Headers.valid_value path
    then (<[self := with_headers
                      (Headers.replace "Location" path
                         (headers (redirecting path r)))
                      (redirecting path r)]> st,
          Return self)
    else (<[self := redirecting path r]> st, Raise ValueError).
Proof.
  intros H. unfold Response.redirect, bind.
  rewrite (assign_run _ _ _ _ H), set_data_again, content_type_html_again.
  rewrite setitem_again. fold (redirecting path r).
  by destruct (Headers.valid_value path).
Qed.

(** The type [send_file] takes from the suffix of the path. *)
Definition suffix_type (path : string) : string :=
  default "text/html" (types_map py !! path_suffix py path).

Lemma send_file_run self path st r :
  st !! self = Some r ->
  Response.send_file py self path st
  = match read_text py path with
    | Return text =>
        if Headers.valid_value (suffix_type path)
        then (<[self := with_headers
                          (Headers.replace "Content-Type" (suffix_type path)
                             (headers (stored text r)))
                          (stored text r)]> st,
              Return self)
        else (<[self := stored text r]> st, Raise ValueError)
    | Raise e => (st, Raise e)
    end.
Proof.
  intros H. unfold Response.send_file, bind, set_content_type.
  destruct (read_text py path) as [text|e]; [|done].
  rewrite (set_data_run _ _ _ _ H), setitem_again. fold (suffix_type path).
  by destruct (Headers.valid_value (suffix_type path)).
Qed.

End ResponseRuns.

Section ResponseRunsPartial.

Context (py : Platform).
Implicit Types (st : Store) (r : FlaskResponse) (self : loc).

(** [send_status] sets the status first; an unknown code then stops it at
    the phrase lookup. *)
Lemma send_status_run self code st r :
  st !! self = Some r ->
  Response.send_status py self code st
  = match http_status py !! code with
    | Some phrase =>
        (<[self := sent (Py.str_or phrase (Py.str code))
                     (with_status_code code r)]> st,
         Return self)
    | None => (<[self := with_status_code code r]> st, Raise ValueError)
    end.
Proof.
  intros H. unfold Response.send_status, bind.
  rewrite (status_run _ _ _ _ H). unfold Response.HTTPStatus_phrase.
  destruct (http_status py !! code) as [phrase|]; [|done].
  unfold ret at 1.
  rewrite (send_text_run py _ _ _ (with_status_code code r))
    by apply lookup_insert_eq.
  by rewrite insert_insert_eq.
Qed.

(** The name [download] announces, and the header value that carries it. *)
Definition shown_name (path : string) (filename : option string) : string :=
  match filename with
  | Some f => Py.str_or f (path_name py path)
  | None => path_name py path
  end.

Definition disposition (path : string) (filename : option string) : string :=
  "attachment; filename=" +:+ shown_name path filename.

Lemma download_run self path filename st r :
  st !! self = Some r ->
  let disposed :=
    with_headers
      (Headers.replace "Content-Disposition" (disposition path filename)
         (headers r)) r in
  Response.download py self path filename st
  = if Headers.valid_value (disposition path filename)
    then match read_text py path with
         | Return text =>
             if Headers.valid_value (suffix_type py path)
             then (<[self := with_headers
                               (Headers.replace "Content-Type" (suffix_type py path)
                                  (headers (stored text disposed)))
                               (stored text disposed)]> st,
                   Return self)
             else (<[self := stored text disposed]> st, Raise ValueError)
         | Raise e => (<[self := disposed]> st, Raise e)
         end
    else (st, Raise ValueError).
Proof.
  intros H disposed. unfold Response.download, bind.
  rewrite (set_header_run _ _ _ _ H).
  cbn [merged_until]. fold (shown_name path filename).
  fold (disposition path filename).
  destruct (Headers.valid_value (disposition path filename)); cbn [fst snd].
  - fold disposed.
    rewrite (send_file_run py _ _ _ disposed) by apply lookup_insert_eq.
    destruct (read_text py path) as [text|e]; [|done].
    destruct (Headers.valid_value (suffix_type py path));
      by rewrite insert_insert_eq.
  - f_equal. apply insert_id. by destruct r.
Qed.

End ResponseRunsPartial.

(** ** The request facade *)

Module RequestClaims.

(** A request that accepts JSON, with the framework's membership test and
    with plain membership in the list of accepted types. *)
Definition wants_json : FlaskRequest :=
  mkFlaskRequest "http"
    [("Host", "example.com"); ("Accept", "application/json")] None
    (MIMEAccept.contains ["application/json"]).

Definition plain_member (items : list string) (v : string) : outcome bool :=
  Return (bool_decide (v ∈ items)).

Definition wants_json_plain : FlaskRequest :=
  mkFlaskRequest "http"
    [("Host", "example.com"); ("Accept", "application/json")] None
    (plain_member ["application/json"]).

(** A request to a port that is not the default one. *)
Definition on_port_3000 : FlaskRequest :=
  mkFlaskRequest "http" [("Host", "example.com:3000")] None
    (MIMEAccept.contains []).

Definition to_host (h : string) : FlaskRequest :=
  mkFlaskRequest "http" [("Host", h)] None (MIMEAccept.contains []).

(** [accepts] looks the bare name up as it is, without the leading dot the
    keys of the table carry: a name the table does not hold is tested for
    membership itself. *)
Lemma accepts_bare py req media_type :
  Py.has_char "/" media_type = false ->
  types_map py !! media_type = None ->
  Request.accepts py req media_type = accept_mimetypes req media_type.
Proof. intros Hbare Hmiss. unfold Request.accepts. by rewrite Hbare, Hmiss. Qed.

(** A type with a slash is tested as it is. *)
Lemma accepts_mime py req media_type :
  Py.has_char "/" media_type = true ->
  Request.accepts py req media_type = accept_mimetypes req media_type.
Proof. intros H. unfold Request.accepts. by rewrite H. Qed.

(** C1 (the code departs from the claim).  On a request whose Accept set
    holds application/json, and with a table that maps [.json] to
    application/json, [accepts] of the bare extension json does not answer
    true: the lookup is made under the key json, which the table does not
    hold, so the string json itself is tested.  The framework's test refuses
    a value without a slash; a plain membership test answers false. *)
Theorem accepts_json_misses_the_table :
  accept_mimetypes wants_json "application/json" = Return true
  /\ types_map Std.py !! ".json" = Some "application/json"
  /\ types_map Std.py !! "json" = None
  /\ Request.accepts Std.py wants_json "json" = accept_mimetypes wants_json "json"
  /\ Request.accepts Std.py wants_json "json" = Raise ValueError
  /\ accept_mimetypes wants_json_plain "application/json" = Return true
  /\ Request.accepts Std.py wants_json_plain "json" = Return false.
Proof. repeat split; vm_compute; reflexivity. Qed.

(** The facade hands on the framework's [host]: a Host header that ends in
    neither default port comes back whole. *)
Lemma host_is_header req h :
  Headers.get "host" (request_headers req) = Some h ->
  Py.endswith ":80" h = false ->
  Py.endswith ":443" h = false ->
  Request.host req = h /\ Request.hostname req = h.
Proof.
  intros Hh H80 H443. unfold Request.hostname, Request.host, flask_host.
  rewrite Hh, H80, H443. by rewrite !andb_false_r.
Qed.

(** C3 (the code departs from the claim).  For the Host header
    example.com:3000 both [host] and [hostname] give example.com:3000, port
    included; the claim and the docstrings of both accessors say
    example.com. *)
Theorem host_keeps_the_port :
  Headers.get "Host" (request_headers on_port_3000) = Some "example.com:3000"
  /\ Request.host on_port_3000 = "example.com:3000"
  /\ Request.hostname on_port_3000 = "example.com:3000"
  /\ Request.host on_port_3000 <> "example.com".
Proof. repeat split; try (vm_compute; reflexivity). discriminate. Qed.

(** C4.  When the hostname is the labels [labels] joined by dots,
    [subdomains] is those labels reversed without the first two of the
    reversed list, which is the split of the hostname on dots treated the
    same way; with two labels or fewer it is the empty list, and no error is
    possible. *)
Theorem subdomains_spec (req : FlaskRequest) (labels : list string) :
  labels <> [] ->
  Forall (fun w => Py.has_char "." w = false) labels ->
  Request.hostname req = Py.join "." labels ->
  Request.subdomains req = drop 2 (reverse labels)
  /\ Request.subdomains req
     = drop 2 (reverse (Py.split "." (Request.hostname req)))
  /\ (length labels <= 2 -> Request.subdomains req = []).
Proof.
  intros Hne Hfree Hhost.
  assert (Request.subdomains req = drop 2 (reverse labels)) as Hsub.
  { unfold Request.subdomains, Py.reversed_from. rewrite Hhost.
    by rewrite (split_join "." labels Hne Hfree). }
  split; [exact Hsub|]. split; [done|].
  intros Hlen. rewrite Hsub. apply drop_ge. rewrite length_reverse. lia.
Qed.

Lemma subdomains_spec_witness :
  Request.subdomains (to_host "tobi.ferrets.example.com") = ["ferrets"; "tobi"].
Proof.
  apply (subdomains_spec (to_host "tobi.ferrets.example.com")
           ["tobi"; "ferrets"; "example"; "com"]).
  - discriminate.
  - repeat constructor.
  - reflexivity.
Defined.

Example subdomains_of_bare_domain :
  Request.subdomains (to_host "example.com") = [].
Proof. reflexivity. Qed.

Example subdomains_of_odd_hosts :
  Request.subdomains (to_host "localhost") = []
  /\ Request.subdomains (to_host EmptyString) = []
  /\ Request.subdomains (to_host "a..example.com") = [EmptyString; "a"]
  /\ Request.subdomains (to_host "a.b.example.com:3000") = ["b"; "a"].
Proof. repeat split. Qed.

End RequestClaims.

(** ** The response facade *)

Module ResponseClaims.

Implicit Types (st : Store) (r : FlaskResponse) (self : loc).

Definition ok_is_true : string :=
  "{" +:+ Py.dquote +:+ "ok" +:+ Py.dquote +:+ ": true}".

(** A store whose response already carries a Content-Type. *)
Definition plain_text : FlaskResponse :=
  mkFlaskResponse 200 [("content-type", "text/plain")] EmptyString.

(** Values that hold a line feed. *)
Definition two_lines : string := "1" +:+ Py.nl +:+ "Set-Cookie: a=b".
Definition two_line_type : string := "text/plain" +:+ Py.nl +:+ "Set-Cookie: a=b".
Definition two_line_path : string := "/x" +:+ Py.nl +:+ "Set-Cookie: a=b".

(** *** What the assignments leave in the native response *)

Lemma stored_facts d r :
  status_code (stored d r) = status_code r
  /\ data (stored d r) = d
  /\ Headers.get "Content-Length" (headers (stored d r)) = Some (content_length d)
  /\ forall name, Headers.same_key name "Content-Length" = false ->
       Headers.get name (headers (stored d r)) = Headers.get name (headers r).
Proof.
  unfold stored. cbn [status_code data headers].
  split; [done|]. split; [done|]. split; [apply get_replace_same|].
  intros name Hname. by apply get_replace_other.
Qed.

Lemma sent_facts text r :
  status_code (sent text r) = status_code r
  /\ data (sent text r) = text
  /\ Headers.get "Content-Type" (headers (sent text r))
     = match Headers.get "Content-Type" (headers r) with
       | Some ct => Some ct
       | None => Some "text/html"
       end
  /\ Headers.get "Content-Length" (headers (sent text r))
     = Some (content_length text)
  /\ forall name,
       Headers.same_key name "Content-Type" = false ->
       Headers.same_key name "Content-Length" = false ->
       Headers.get name (headers (sent text r)) = Headers.get name (headers r).
Proof.
  destruct (stored_facts text r) as (Hs & Hd & Hl & Ho).
  unfold sent. destruct (Headers.get "Content-Type" (headers r)) as [ct|] eqn:Hct.
  - split; [done|]. split; [done|]. split.
    { rewrite Ho by (vm_compute; reflexivity). exact Hct. }
    split; [done|]. intros name _ Hname. by apply Ho.
  - cbn [status_code data headers with_headers].
    split; [done|]. split; [done|]. split; [apply get_replace_same|]. split.
    { by rewrite get_replace_other by (vm_compute; reflexivity). }
    intros name Htype Hlength. rewrite get_replace_other by done. by apply Ho.
Qed.



(** For a code with a phrase, [send_status] sets the status and sends the
    phrase as a text. *)
Lemma send_status_known py self code phrase st r :
  st !! self = Some r ->
  http_status py !! code = Some phrase ->
  phrase <> EmptyString ->
  exists r',
    Response.send_status py self code st = (<[self := r']> st, Return self)
    /\ status_code r' = code /\ data r' = phrase.
Proof.
  intros H Hcode Hphrase. rewrite (send_status_run py _ _ _ _ H), Hcode.
  eexists. split; [reflexivity|].
  assert (Py.str_or phrase (Py.str code) = phrase) as ->
    by (by destruct phrase).
  destruct (sent_facts phrase (with_status_code code r)) as (Hs & Hd & _).
  by rewrite Hs, Hd.
Qed.

Example send_status_404 :
  Response.send_status Std.py Std.res 404 Std.new_store
  = ({[ Std.res := mkFlaskResponse 404
                     [("Content-Type", "text/html; charset=utf-8");
                      ("Content-Length", "9")] "Not Found" ]},
     Return Std.res).
Proof. vm_compute. reflexivity. Qed.

(** C2 (the code departs from the claim).  599 has no phrase in the table,
    and [send_status] of it raises [ValueError] once the status has been set
    to 599: the body is left as it was and never becomes the text 599, which
    is what the claim and the docstring promise. *)
Theorem send_status_599_raises :
  http_status Std.py !! 599%Z = None
  /\ Response.send_status Std.py Std.res 599 Std.store
     = ({[ Std.res := mkFlaskResponse 599 [] EmptyString ]}, Raise ValueError)
  /\ Py.str 599 = "599".
Proof. repeat split; vm_compute; reflexivity. Qed.




Example send_keeps_content_type :
  Response.send Std.py Std.res (VStr "hello") {[ Std.res := plain_text ]}
  = ({[ Std.res := mkFlaskResponse 200
                     [("content-type", "text/plain"); ("Content-Length", "5")]
                     "hello" ]},
     Return Std.res).
Proof. vm_compute. reflexivity. Qed.

Example send_without_content_type :
  Response.send Std.py Std.res (VStr "hello") Std.store
  = ({[ Std.res := mkFlaskResponse 200
                     [("Content-Length", "5"); ("Content-Type", "text/html")]
                     "hello" ]},
     Return Std.res).
Proof. vm_compute. reflexivity. Qed.

(** C6, as the claim states it, fails for a string with a slash and a line
    feed: the header container refuses the value with [ValueError] and the
    Content-Type is not set to it. *)
Lemma content_type_refuses_line_feed :
  Py.has_char "/" two_line_type = true
  /\ Response.content_type Std.py Std.res two_line_type Std.new_store
     = (Std.new_store, Raise ValueError)
  /\ Response.content_type Std.py Std.res two_line_type Std.new_store
     <> (<[Std.res := mkFlaskResponse 200 [("Content-Type", two_line_type)]
                        EmptyString]> Std.new_store,
         Return Std.res).
Proof.
  split; [vm_compute; reflexivity|]. split; [vm_compute; reflexivity|].
  vm_compute. discriminate.
Qed.

(** C6, amended.  The value [content_type] writes is the given string when
    it has a slash, and otherwise the entry of the table under the string
    with a dot before it, or text/html without such an entry.  When that
    value holds no carriage return and no line feed, [content_type] returns
    the facade and changes the Content-Type header only, to that value;
    when it holds one, the container refuses it with [ValueError] and the
    response is unchanged.  So application/xml is set as it is, and json
    gives the table's entry for [.json]. *)
Theorem content_type_spec (py : Platform) self st r (v : string) :
  st !! self = Some r ->
  let written :=
    if Py.has_char "/" v then v
    else default "text/html" (types_map py !! ("." +:+ v)) in
  (Headers.valid_value written = true ->
   exists r',
     Response.content_type py self v st = (<[self := r']> st, Return self)
     /\ status_code r' = status_code r
     /\ data r' = data r
     /\ (forall k, Headers.same_key k "Content-Type" = false ->
           Headers.get k (headers r') = Headers.get k (headers r))
     /\ Headers.get "Content-Type" (headers r') = Some written)
  /\ (Headers.valid_value written = false ->
      Response.content_type py self v st = (st, Raise ValueError))
  /\ (Py.has_char "/" v = false -> types_map py !! ("." +:+ v) = None ->
      written = "text/html" /\ Headers.valid_value written = true)
  /\ (v = "application/xml" ->
      written = "application/xml" /\ Headers.valid_value written = true)
  /\ (v = "json" ->
      forall mime, types_map py !! ".json" = Some mime -> written = mime).
Proof.
  intros H written. fold (resolved py v) in written.
  rewrite (content_type_run py _ _ _ _ H). fold written.
  split; [|split; [|split; [|split]]].
  - intros ->. eexists. split; [reflexivity|].
    cbn [status_code data headers with_headers].
    split; [done|]. split; [done|]. split; [|apply get_replace_same].
    intros k Hk. by apply get_replace_other.
  - by intros ->.
  - intros Hbare Hmiss. unfold written, resolved. by rewrite Hbare, Hmiss.
  - by intros ->.
  - intros -> mime Hmime. unfold written, resolved.
    cbn [Py.has_char Ascii.eqb Bool.eqb].
    change ("." +:+ "json") with ".json". by rewrite Hmime.
Qed.

Lemma content_type_spec_witness :
  exists r',
    Response.content_type Std.py Std.res "json" Std.new_store
    = (<[Std.res := r']> Std.new_store, Return Std.res)
    /\ Headers.get "Content-Type" (headers r') = Some "application/json".
Proof.
  destruct (content_type_spec Std.py Std.res Std.new_store new_FlaskResponse
              "json" eq_refl) as (Hvalid & _).
  destruct (Hvalid eq_refl) as (r' & Hrun & _ & _ & _ & Htype).
  exists r'. split; [exact Hrun|exact Htype].
Defined.

Example content_type_examples :
  Response.content_type Std.py Std.res "application/xml" Std.new_store
  = ({[ Std.res := mkFlaskResponse 200 [("Content-Type", "application/xml")] EmptyString ]},
     Return Std.res)
  /\ Response.content_type Std.py Std.res "json" Std.new_store
     = ({[ Std.res := mkFlaskResponse 200 [("Content-Type", "application/json")] EmptyString ]},
        Return Std.res)
  /\ Response.content_type Std.py Std.res "nosuchextension" Std.new_store
     = ({[ Std.res := mkFlaskResponse 200 [("Content-Type", "text/html")] EmptyString ]},
        Return Std.res).
Proof. split; [|split]; vm_compute; reflexivity. Qed.

(** The chain of the example, each call made on what the one before it
    returned. *)
Definition chain (py : Platform) self : M Store loc :=
  do a <- Response.status self 201;
  do b <- Response.set_header a [("X-Foo", "1")];
  Response.json py b (VDict [("ok", VBool true)]).




Example chain_on_new_response :
  chain Std.py Std.res Std.new_store
  = ({[ Std.res := mkFlaskResponse 201
                     [("Content-Type", "application/json"); ("X-Foo", "1");
                      ("Content-Length", "12")]
                     ok_is_true ]},
     Return Std.res).
Proof. vm_compute. reflexivity. Qed.

Lemma append_assoc (a b c : string) : (a +:+ b) +:+ c = a +:+ b +:+ c.
Proof.
  induction a as [|x a IH]; [done|].
  change (String x ((a +:+ b) +:+ c) = String x (a +:+ b +:+ c)).
  by f_equal.
Qed.

(** The link of the redirect notice. *)
Definition link (path : string) : string :=
  "<a href=" +:+ Py.dquote +:+ path +:+ Py.dquote +:+ ">" +:+ path +:+ "</a>".

(** The notice is a fixed text around the link. *)
Lemma redirect_notice_link path :
  exists before after,
    Response.redirect_notice path = before +:+ link path +:+ after.
Proof.
  exists (Py.nl +:+ "<!DOCTYPE HTML PUBLIC " +:+ Py.dquote
            +:+ "-//W3C//DTD HTML 3.2 Final//EN" +:+ Py.dquote +:+ ">" +:+ Py.nl
            +:+ "<title>Redirecting...</title>" +:+ Py.nl
            +:+ "<h1>Redirecting...</h1>" +:+ Py.nl
            +:+ "<p>You should be redirected automatically to target URL: "),
         (".  If not click the link." +:+ Py.nl).
  unfold Response.redirect_notice, link.
  rewrite !append_assoc. reflexivity.
Qed.

Lemma notice_contains_path path :
  Py.contains path (Response.redirect_notice path) = true.
Proof.
  destruct (redirect_notice_link path) as (before & after & ->).
  assert (before +:+ link path +:+ after
          = (before +:+ "<a href=" +:+ Py.dquote) +:+ path
              +:+ (Py.dquote +:+ ">" +:+ path +:+ "</a>" +:+ after)) as ->
    by (unfold link; rewrite !append_assoc; reflexivity).
  apply contains_app.
Qed.

(** What [redirect] has written when it comes to the Location header. *)
Lemma redirecting_facts path r :
  status_code (redirecting path r) = 302%Z
  /\ data (redirecting path r) = Response.redirect_notice path
  /\ Headers.get "Content-Type" (headers (redirecting path r)) = Some "text/html"
  /\ Headers.get "Location" (headers (redirecting path r))
     = Headers.get "Location" (headers r).
Proof.
  unfold redirecting.
  destruct (stored_facts (Response.redirect_notice path) (with_status_code 302 r))
    as (Hs & Hd & _ & Ho).
  cbn [status_code data headers with_headers].
  split; [done|]. split; [done|]. split; [apply get_replace_same|].
  rewrite get_replace_other by (vm_compute; reflexivity).
  by rewrite Ho by (vm_compute; reflexivity).
Qed.

(** C8, as the claim states it, fails for a path that holds a line feed:
    [redirect] raises [ValueError] at the Location header, which is left
    unset, after the status, the body and the Content-Type are written. *)
Lemma redirect_refuses_line_feed :
  exists r',
    Response.redirect Std.py Std.res two_line_path Std.new_store
    = ({[ Std.res := r' ]}, Raise ValueError)
    /\ status_code r' = 302%Z
    /\ Headers.get "Location" (headers r') = None
    /\ Headers.get "Location" (headers r') <> Some two_line_path.
Proof.
  eexists. split; [vm_compute; reflexivity|]. cbn [status_code headers].
  split; [done|]. split; [vm_compute; reflexivity|]. vm_compute. discriminate.
Qed.

(** C8, amended.  On a store that holds the facade, for a path with no
    carriage return and no line feed, [redirect] returns the facade with
    status 302, the redirect notice as body, Content-Type text/html and
    Location equal to the path.  The path stands in the body as it was
    given, as the target and the text of the link, so the body contains it.
    For a path that holds a line break the Location header is refused:
    [redirect] raises [ValueError] with the status, the body and the
    Content-Type written and the Location as it was. *)
Theorem redirect_spec (py : Platform) self st r (path : string) :
  st !! self = Some r ->
  (Headers.valid_value path = true ->
   exists r',
     Response.redirect py self path st = (<[self := r']> st, Return self)
     /\ status_code r' = 302%Z
     /\ data r' = Response.redirect_notice path
     /\ (exists before after, data r' = before +:+ link path +:+ after)
     /\ Py.contains path (data r') = true
     /\ Headers.get "Content-Type" (headers r') = Some "text/html"
     /\ Headers.get "Location" (headers r') = Some path)
  /\ (Headers.valid_value path = false ->
      exists r',
        Response.redirect py self path st = (<[self := r']> st, Raise ValueError)
        /\ status_code r' = 302%Z
        /\ data r' = Response.redirect_notice path
        /\ Headers.get "Content-Type" (headers r') = Some "text/html"
        /\ Headers.get "Location" (headers r')
           = Headers.get "Location" (headers r)).
Proof.
  intros H. rewrite (redirect_run py _ _ _ _ H).
  destruct (redirecting_facts path r) as (Hs & Hd & Ht & Hl).
  split; intros ->.
  - eexists. split; [reflexivity|]. cbn [status_code data headers with_headers].
    split; [done|]. split; [done|]. rewrite Hd.
    split; [apply redirect_notice_link|].
    split; [apply notice_contains_path|]. split; [|apply get_replace_same].
    by rewrite get_replace_other by (vm_compute; reflexivity).
  - eexists. split; [reflexivity|]. done.
Qed.

Lemma redirect_spec_witness :
  exists r',
    Response.redirect Std.py Std.res "/x" Std.new_store
    = (<[Std.res := r']> Std.new_store, Return Std.res)
    /\ status_code r' = 302%Z
    /\ Py.contains "/x" (data r') = true
    /\ Headers.get "Location" (headers r') = Some "/x".
Proof.
  destruct (redirect_spec Std.py Std.res Std.new_store new_FlaskResponse "/x"
              eq_refl) as (Hvalid & _).
  destruct (Hvalid eq_refl) as (r' & Hrun & Hcode & _ & _ & Hbody & _ & Hloc).
  exists r'. repeat (split; [assumption|]). assumption.
Defined.

Example redirect_does_not_escape :
  link "<b>" = "<a href=" +:+ Py.dquote +:+ "<b>" +:+ Py.dquote +:+ "><b></a>"
  /\ match (Response.redirect Std.py Std.res "<b>" Std.new_store).1 !! Std.res with
     | Some r' => Py.contains (link "<b>") (data r')
     | None => false
     end = true.
Proof. split; vm_compute; reflexivity. Qed.

(** C10.  When the file cannot be read, [send_file] raises the error of the
    read and leaves the store as it found it: status, headers and body of
    every response, the one behind the facade included, are what they
    were. *)
Theorem send_file_unreadable (py : Platform) self st (path : string) (e : exn) :
  read_text py path = Raise e ->
  Response.send_file py self path st = (st, Raise e).
Proof.
  intros Hread. unfold Response.send_file, bind. by rewrite Hread.
Qed.

Lemma send_file_unreadable_witness :
  Response.send_file Std.py Std.res "missing.txt" Std.store
  = (Std.store, Raise FileNotFoundError).
Proof.
  apply (send_file_unreadable Std.py Std.res Std.store "missing.txt").
  vm_compute. reflexivity.
Defined.

Example send_file_readable :
  Response.send_file Std.py Std.res "static/index.html" Std.new_store
  = ({[ Std.res := mkFlaskResponse 200
                     [("Content-Type", "text/html"); ("Content-Length", "13")]
                     "<h1>Home</h1>" ]},
     Return Std.res).
Proof. vm_compute. reflexivity. Qed.

End ResponseClaims.
(** ** [listen] and the streams of the process *)

Module ListenClaims.

Import GodLike.

(** A process with the two usual streams open, and a server that logs one
    line of each kind while it serves. *)
Definition console : Process :=
  mkProcess {[ 0 := mkFile "<stdout>" false []; 1 := mkFile "<stderr>" false [] ]} 0 1.

Definition logging_server (hostname : string) (port : Z) : M Process unit :=
  log "GET / 200".

Definition printing_server (hostname : string) (port : Z) : M Process unit :=
  print " * Running".

Definition silent_server (hostname : string) (port : Z) : M Process unit :=
  ret tt.

(** The process as the server finds it under [verbose=False]: both streams
    name the null file, which the end of the [with] block has closed. *)
Definition muted (p : Process) : Process :=
  let null := fresh (dom (objects p)) in
  mkProcess (<[null := mkFile devnull true []]> (objects p)) null null.

Lemma listen_quiet_run run_simple port hostname p :
  listen run_simple port hostname false p
  = match run_simple hostname port (muted p) with
    | (p', Return _) =>
        (mkProcess (objects p') (sys_stdout p) (sys_stderr p), Return tt)
    | (p', Raise e) => (p', Raise e)
    end.
Proof.
  unfold listen, bind, with_open, bind, open_w, get_stdout, get_stderr,
    set_stdout, set_stderr, close, ret, muted. simpl.
  rewrite alter_insert_eq. simpl.
  by destruct (run_simple hostname port _) as [p' [[]|e]].
Qed.

Lemma listen_verbose_run run_simple port hostname p :
  listen run_simple port hostname true p
  = match run_simple hostname port p with
    | (p', Return _) => (p', Return tt)
    | (p', Raise e) => (p', Raise e)
    end.
Proof.
  unfold listen, bind, ret. simpl.
  by destruct (run_simple hostname port p) as [p' [[]|e]].
Qed.

(** While a muted process serves, a write to either stream is refused. *)
Lemma muted_refuses_writes p text :
  print text (muted p) = (muted p, Raise ValueError)
  /\ log text (muted p) = (muted p, Raise ValueError).
Proof.
  unfold print, log, bind, get_stdout, get_stderr, write, muted. simpl.
  by rewrite lookup_insert_eq.
Qed.

(** C9 (the code departs from the claim).  Under [verbose=False] the two
    streams are pointed at the null file inside a [with] block that ends,
    and so closes the file, before the server starts.  A server that logs
    or prints a line is refused with [ValueError] instead of being
    silenced, the error leaves [listen] before the streams are put back,
    and they go on naming the closed file.  Under [verbose=True] the line
    is written and the streams are untouched; a server that writes nothing
    gets the streams back as they were. *)
Theorem listen_quiet_serves_on_a_closed_file :
  (listen logging_server 5000 "localhost" false console).2 = Raise ValueError
  /\ (listen printing_server 5000 "localhost" false console).2 = Raise ValueError
  /\ sys_stdout (listen logging_server 5000 "localhost" false console).1 = 2
  /\ sys_stderr (listen logging_server 5000 "localhost" false console).1 = 2
  /\ objects (listen logging_server 5000 "localhost" false console).1 !! 2
     = Some (mkFile devnull true [])
  /\ listen logging_server 5000 "localhost" true console
     = (mkProcess {[ 0 := mkFile "<stdout>" false [];
                     1 := mkFile "<stderr>" false ["GET / 200"] ]} 0 1,
        Return tt)
  /\ sys_stdout (listen silent_server 5000 "localhost" false console).1 = 0
  /\ sys_stderr (listen silent_server 5000 "localhost" false console).1 = 1.
Proof.
  split; [vm_compute; reflexivity|]. split; [vm_compute; reflexivity|].
  split; [vm_compute; reflexivity|]. split; [vm_compute; reflexivity|].
  split; [vm_compute; reflexivity|]. split; [vm_compute; reflexivity|].
  split; vm_compute; reflexivity.
Qed.

End ListenClaims.

(** * Further properties of the facade *)

(** ** Header names and case *)

Section CaseFacts.

Lemma lower_char_idem c : Py.lower_char (Py.lower_char c) = Py.lower_char c.
Proof. by destruct c as [[] [] [] [] [] [] [] []]. Qed.

Lemma lower_upper_char c : Py.lower_char (Py.upper_char c) = Py.lower_char c.
Proof. by destruct c as [[] [] [] [] [] [] [] []]. Qed.

Lemma lower_idem s : Py.lower (Py.lower s) = Py.lower s.
Proof.
  induction s as [|c s IH]; [done|]. cbn [Py.lower].
  by rewrite lower_char_idem, IH.
Qed.

Lemma lower_upper s : Py.lower (Py.upper s) = Py.lower s.
Proof.
  induction s as [|c s IH]; [done|]. cbn [Py.lower Py.upper].
  by rewrite lower_upper_char, IH.
Qed.

(** A lookup depends on the name only up to case. *)
Lemma get_same_key a b h :
  Py.lower a = Py.lower b -> Headers.get a h = Headers.get b h.
Proof.
  intros Hab. induction h as [|[k v] h IH]; [done|]. cbn [Headers.get].
  unfold Headers.same_key. by rewrite Hab, IH.
Qed.

Lemma getlist_same_key a b h :
  Py.lower a = Py.lower b -> Headers.getlist a h = Headers.getlist b h.
Proof.
  intros Hab. induction h as [|[k v] h IH]; [done|]. cbn [Headers.getlist].
  unfold Headers.same_key. by rewrite Hab, IH.
Qed.

(** The first value [getlist] gives is the value [get] gives. *)
Lemma head_getlist key h : List.head (Headers.getlist key h) = Headers.get key h.
Proof.
  induction h as [|[k v] h IH]; [done|]. cbn [Headers.getlist Headers.get].
  by destruct (Headers.same_key k key).
Qed.

Lemma same_key_sym_false a b :
  Headers.same_key a b = false -> Headers.same_key b a = false.
Proof.
  intros H. apply not_true_is_false. intros Hba. apply same_key_eq in Hba.
  assert (Headers.same_key a b = true) by (by apply same_key_eq). congruence.
Qed.

End CaseFacts.

(** ** More of the response facade *)

Module ResponseExtras.

Implicit Types (st : Store) (r : FlaskResponse) (self : loc).

(** The value the last field of [fields] with this name, up to case, gives. *)
Fixpoint last_value (key : string) (fields : list (string * string))
  : option string :=
  match fields with
  | [] => None
  | (k, v) :: rest =>
      match last_value key rest with
      | Some w => Some w
      | None => if Headers.same_key k key then Some v else None
      end
  end.

Lemma merged_get key fields h :
  Headers.get key (merged fields h)
  = match last_value key fields with
    | Some v => Some v
    | None => Headers.get key h
    end.
Proof.
  revert h. induction fields as [|[k v] fields IH]; intros h; [done|].
  cbn [merged fold_left last_value fst snd]. fold (merged fields (Headers.replace k v h)).
  rewrite IH. destruct (last_value key fields); [done|].
  destruct (Headers.same_key k key) eqn:Hk.
  - apply same_key_eq in Hk. rewrite (get_same_key key k) by done.
    apply get_replace_same.
  - apply get_replace_other. by apply same_key_sym_false.
Qed.

Lemma merged_until_stops good k v rest h :
  forallb Headers.valid_value (snd <$> good) = true ->
  Headers.valid_value v = false ->
  merged_until (good ++ (k, v) :: rest) h = (merged good h, Raise ValueError).
Proof.
  revert h. induction good as [|[k0 v0] good IH]; intros h Hgood Hv.
  - cbn. by rewrite Hv.
  - cbn [fmap list_fmap forallb snd] in Hgood.
    apply andb_true_iff in Hgood as [Hv0 Hgood].
    cbn [app merged_until merged fold_left fst snd]. rewrite Hv0.
    by apply IH.
Qed.

(** X1.  When no value of [fields] holds a carriage return or a line feed,
    [set_header(fields)] returns the facade, and afterwards [get(name)]
    gives the value of the last field whose name equals [name] up to case,
    and what it gave before when there is none; status and body are as they
    were.  At the first value that holds a line break [set_header] raises
    [ValueError]: the fields before it are written like that, the fields
    from it on are not. *)
Theorem set_header_then_get self st r (fields : list (string * string)) :
  st !! self = Some r ->
  (forallb Headers.valid_value (snd <$> fields) = true ->
   exists r',
     Response.set_header self fields st = (<[self := r']> st, Return self)
     /\ status_code r' = status_code r
     /\ data r' = data r
     /\ forall name,
          (Response.get self name (<[self := r']> st)).2
          = Return (match last_value name fields with
                    | Some v => Some v
                    | None => Headers.get name (headers r)
                    end))
  /\ (forall good k v rest,
        fields = good ++ (k, v) :: rest ->
        forallb Headers.valid_value (snd <$> good) = true ->
        Headers.valid_value v = false ->
        exists r',
          Response.set_header self fields st = (<[self := r']> st, Raise ValueError)
          /\ status_code r' = status_code r
          /\ data r' = data r
          /\ forall name,
               Headers.get name (headers r')
               = match last_value name good with
                 | Some w => Some w
                 | None => Headers.get name (headers r)
                 end).
Proof.
  intros H. rewrite (set_header_run _ _ _ _ H). split.
  - intros Hvalid. rewrite (merged_until_valid _ _ Hvalid). cbn [fst snd].
    eexists. split; [reflexivity|]. split; [done|]. split; [done|].
    intros name. rewrite (get_run _ _ _ _ (lookup_insert_eq _ _ _)).
    cbn [snd headers with_headers]. f_equal. apply merged_get.
  - intros good k v rest -> Hgood Hv.
    rewrite (merged_until_stops _ _ _ _ _ Hgood Hv). cbn [fst snd].
    eexists. split; [reflexivity|]. split; [done|]. split; [done|].
    intros name. cbn [headers with_headers]. apply merged_get.
Qed.

Lemma set_header_then_get_witness :
  exists r',
    Response.set_header Std.res [("X-Foo", "1"); ("x-foo", "2"); ("Vary", "*")]
      Std.new_store
    = (<[Std.res := r']> Std.new_store, Return Std.res)
    /\ (Response.get Std.res "X-FOO" (<[Std.res := r']> Std.new_store)).2
       = Return (Some "2").
Proof.
  destruct (set_header_then_get Std.res Std.new_store new_FlaskResponse
              [("X-Foo", "1"); ("x-foo", "2"); ("Vary", "*")] eq_refl)
    as (Hvalid & _).
  destruct (Hvalid eq_refl) as (r' & Hrun & _ & _ & Hget).
  exists r'. split; [exact Hrun|]. apply (Hget "X-FOO").
Defined.

Example set_header_stops_at_line_feed :
  Response.set_header Std.res
    [("X-Foo", "1"); ("X-Bar", ResponseClaims.two_lines); ("Vary", "*")]
    Std.new_store
  = ({[ Std.res := mkFlaskResponse 200
                     [("Content-Type", "text/html; charset=utf-8"); ("X-Foo", "1")]
                     EmptyString ]},
     Raise ValueError).
Proof. vm_compute. reflexivity. Qed.

(** X2.  [get] does not see the case of the header name: the name in lower
    case and in upper case give what the name itself gives. *)
Theorem get_ignores_case self st (name : string) :
  Response.get self (Py.lower name) st = Response.get self name st
  /\ Response.get self (Py.upper name) st = Response.get self name st.
Proof.
  unfold Response.get, bind, flask_response.
  destruct (st !! self) as [r|]; [|done]. unfold ret.
  by rewrite (get_same_key (Py.lower name) name) by apply lower_idem;
     rewrite (get_same_key (Py.upper name) name) by apply lower_upper.
Qed.

(** X3.  When the file cannot be read and the Content-Disposition value
    holds no carriage return and no line feed, [download] raises the error
    of the read after it has set Content-Disposition: unlike [send_file] it
    leaves a changed response behind, with that one header written and the
    status, the body and the other headers as they were.  When the value
    holds a line break, [download] raises [ValueError] before the file is
    read and changes nothing. *)
Theorem download_unreadable (py : Platform) self st r
    (path : string) (filename : option string) (e : exn) :
  st !! self = Some r ->
  read_text py path = Raise e ->
  let announced := "attachment; filename=" +:+ shown_name py path filename in
  (Headers.valid_value announced = true ->
   exists r',
     Response.download py self path filename st = (<[self := r']> st, Raise e)
     /\ status_code r' = status_code r
     /\ data r' = data r
     /\ Headers.get "Content-Disposition" (headers r') = Some announced
     /\ forall name, Headers.same_key name "Content-Disposition" = false ->
          Headers.get name (headers r') = Headers.get name (headers r))
  /\ (Headers.valid_value announced = false ->
      Response.download py self path filename st = (st, Raise ValueError)).
Proof.
  intros H Hread announced. rewrite (download_run py _ _ _ _ _ H), Hread.
  fold (disposition py path filename). fold announced.
  change (disposition py path filename) with announced.
  split; intros ->; [|done].
  eexists. split; [reflexivity|]. cbn [status_code data headers with_headers].
  split; [done|]. split; [done|]. split; [apply get_replace_same|].
  intros name Hname. by apply get_replace_other.
Qed.

Lemma download_unreadable_witness :
  exists r',
    Response.download Std.py Std.res "missing.txt" None Std.new_store
    = (<[Std.res := r']> Std.new_store, Raise FileNotFoundError)
    /\ Headers.get "Content-Disposition" (headers r')
       = Some "attachment; filename=missing.txt".
Proof.
  destruct (download_unreadable Std.py Std.res Std.new_store new_FlaskResponse
              "missing.txt" None FileNotFoundError eq_refl eq_refl)
    as (Hvalid & _).
  destruct (Hvalid eq_refl) as (r' & Hrun & _ & _ & Hdisp & _).
  exists r'. split; [exact Hrun|]. exact Hdisp.
Defined.

(** X4.  When the file can be read and neither the Content-Disposition
    value nor the type of the suffix holds a carriage return or a line feed,
    [download] returns the facade with the text of the file as body,
    Content-Length its length, Content-Disposition announcing the file
    name, Content-Type taken from the suffix of the path (text/html without
    an entry), and the status unchanged.  Without a file name, or with an
    empty one, the name announced is the name of the path. *)
Theorem download_readable (py : Platform) self st r
    (path : string) (filename : option string) (text : string) :
  st !! self = Some r ->
  read_text py path = Return text ->
  let announced := "attachment; filename=" +:+ shown_name py path filename in
  let mime := default "text/html" (types_map py !! path_suffix py path) in
  Headers.valid_value announced = true ->
  Headers.valid_value mime = true ->
  (exists r',
     Response.download py self path filename st = (<[self := r']> st, Return self)
     /\ status_code r' = status_code r
     /\ data r' = text
     /\ Headers.get "Content-Disposition" (headers r') = Some announced
     /\ Headers.get "Content-Type" (headers r') = Some mime
     /\ Headers.get "Content-Length" (headers r')
        = Some (Py.str (Z.of_nat (String.length text))))
  /\ (filename = None \/ filename = Some EmptyString ->
      shown_name py path filename = path_name py path)
  /\ (forall f, filename = Some f -> f <> EmptyString ->
      shown_name py path filename = f).
Proof.
  intros H Hread announced mime Hannounced Hmime.
  rewrite (download_run py _ _ _ _ _ H), Hread.
  change (disposition py path filename) with announced.
  change (suffix_type py path) with mime. rewrite Hannounced, Hmime.
  split; [|split].
  - eexists. split; [reflexivity|].
    cbn [status_code data headers with_headers stored].
    split; [done|]. split; [done|]. split.
    { rewrite !get_replace_other by (vm_compute; reflexivity).
      apply get_replace_same. }
    split; [apply get_replace_same|].
    rewrite get_replace_other by (vm_compute; reflexivity).
    apply get_replace_same.
  - by intros [->| ->].
  - intros f -> Hf. by destruct f.
Qed.

Lemma download_readable_witness :
  exists r',
    Response.download Std.py Std.res "static/index.html" (Some "home.html")
      Std.new_store
    = (<[Std.res := r']> Std.new_store, Return Std.res)
    /\ data r' = "<h1>Home</h1>"
    /\ Headers.get "Content-Disposition" (headers r')
       = Some "attachment; filename=home.html".
Proof.
  destruct (download_readable Std.py Std.res Std.new_store new_FlaskResponse
              "static/index.html" (Some "home.html") "<h1>Home</h1>"
              eq_refl eq_refl eq_refl eq_refl)
    as ((r' & Hrun & _ & Hdata & Hdisp & _) & _).
  exists r'. split; [exact Hrun|]. split; [exact Hdata|exact Hdisp].
Defined.

(** X5.  When the file can be read and the type of the suffix holds no
    carriage return and no line feed, [send_file] returns the facade with
    the text of the file as body, Content-Length its length and
    Content-Type taken from the table by the suffix of the path, text/html
    when the table has no entry; it replaces a Content-Type set before and
    leaves the status and the headers other than these two alone. *)
Theorem send_file_readable_spec (py : Platform) self st r
    (path text : string) :
  st !! self = Some r ->
  read_text py path = Return text ->
  let mime := default "text/html" (types_map py !! path_suffix py path) in
  Headers.valid_value mime = true ->
  (exists r',
     Response.send_file py self path st = (<[self := r']> st, Return self)
     /\ status_code r' = status_code r
     /\ data r' = text
     /\ Headers.get "Content-Type" (headers r') = Some mime
     /\ Headers.get "Content-Length" (headers r')
        = Some (Py.str (Z.of_nat (String.length text)))
     /\ forall name,
          Headers.same_key name "Content-Type" = false ->
          Headers.same_key name "Content-Length" = false ->
          Headers.get name (headers r') = Headers.get name (headers r))
  /\ (types_map py !! path_suffix py path = None -> mime = "text/html").
Proof.
  intros H Hread mime Hmime. rewrite (send_file_run py _ _ _ _ H), Hread.
  change (suffix_type py path) with mime. rewrite Hmime.
  split; [|by unfold mime; intros ->].
  eexists. split; [reflexivity|].
  cbn [status_code data headers with_headers stored].
  split; [done|]. split; [done|]. split; [apply get_replace_same|]. split.
  { rewrite get_replace_other by (vm_compute; reflexivity).
    apply get_replace_same. }
  intros name Htype Hlength. by rewrite !get_replace_other by done.
Qed.

Lemma send_file_readable_spec_witness :
  exists r',
    Response.send_file Std.py Std.res "static/index.html" Std.new_store
    = (<[Std.res := r']> Std.new_store, Return Std.res)
    /\ data r' = "<h1>Home</h1>"
    /\ Headers.get "Content-Type" (headers r') = Some "text/html"
    /\ Headers.get "Content-Length" (headers r') = Some "13".
Proof.
  destruct (send_file_readable_spec Std.py Std.res Std.new_store
              new_FlaskResponse "static/index.html" "<h1>Home</h1>"
              eq_refl eq_refl eq_refl)
    as ((r' & Hrun & _ & Hdata & Hmime & Hlength & _) & _).
  exists r'. split; [exact Hrun|]. split; [exact Hdata|].
  split; [exact Hmime|exact Hlength].
Defined.





(** X8.  For a code the status table does not hold, whatever the table,
    [send_status] raises [ValueError] and leaves the response with the new
    status code but with the headers and the body it had: the body is never
    set to the digits of the code. *)
Theorem send_status_unknown (py : Platform) self st r (code : Z) :
  st !! self = Some r ->
  http_status py !! code = None ->
  Response.send_status py self code st
  = (<[self := mkFlaskResponse code (headers r) (data r)]> st, Raise ValueError).
Proof.
  intros H Hcode. by rewrite (send_status_run py _ _ _ _ H), Hcode.
Qed.

Lemma send_status_unknown_witness :
  Response.send_status Std.py Std.res 799 Std.store
  = (<[Std.res := mkFlaskResponse 799 [] EmptyString]> Std.store,
     Raise ValueError).
Proof.
  apply (send_status_unknown Std.py Std.res Std.store Std.blank 799 eq_refl).
  vm_compute. reflexivity.
Defined.

(** X9.  For a code with a phrase that is not empty, [send_status] returns
    the facade with that status and the phrase as body; a Content-Type the
    response already has is kept and text/html is set when it has none,
    Content-Length becomes the length of the phrase, and the other headers
    are left alone. *)
Theorem send_status_phrase (py : Platform) self st r (code : Z) (phrase : string) :
  st !! self = Some r ->
  http_status py !! code = Some phrase ->
  phrase <> EmptyString ->
  exists r',
    Response.send_status py self code st = (<[self := r']> st, Return self)
    /\ status_code r' = code
    /\ data r' = phrase
    /\ (forall ct, Headers.get "Content-Type" (headers r) = Some ct ->
        Headers.get "Content-Type" (headers r') = Some ct)
    /\ (Headers.get "Content-Type" (headers r) = None ->
        Headers.get "Content-Type" (headers r') = Some "text/html")
    /\ Headers.get "Content-Length" (headers r')
       = Some (Py.str (Z.of_nat (String.length phrase)))
    /\ forall name,
         Headers.same_key name "Content-Type" = false ->
         Headers.same_key name "Content-Length" = false ->
         Headers.get name (headers r') = Headers.get name (headers r).
Proof.
  intros H Hcode Hphrase. rewrite (send_status_run py _ _ _ _ H), Hcode.
  assert (Py.str_or phrase (Py.str code) = phrase) as ->
    by (by destruct phrase).
  eexists. split; [reflexivity|].
  destruct (ResponseClaims.sent_facts phrase (with_status_code code r))
    as (Hs & Hd & Ht & Hl & Ho).
  cbn [headers with_status_code status_code] in *.
  split; [done|]. split; [done|].
  split; [by intros ct Hct; rewrite Ht, Hct|].
  split; [by intros Hnone; rewrite Ht, Hnone|].
  split; [done|]. done.
Qed.

Lemma send_status_phrase_witness :
  exists r',
    Response.send_status Std.py Std.res 404 Std.new_store
    = (<[Std.res := r']> Std.new_store, Return Std.res)
    /\ status_code r' = 404%Z
    /\ data r' = "Not Found"
    /\ Headers.get "Content-Length" (headers r') = Some "9".
Proof.
  destruct (send_status_phrase Std.py Std.res Std.new_store new_FlaskResponse
              404 "Not Found" eq_refl)
    as (r' & Hrun & Hcode & Hdata & _ & _ & Hlength & _).
  - vm_compute. reflexivity.
  - discriminate.
  - exists r'. split; [exact Hrun|]. split; [exact Hcode|].
    split; [exact Hdata|exact Hlength].
Defined.

(** X10.  No method of a facade changes another response: whatever the
    nine mutating methods do, and whether they return or raise, every other
    object of the store is afterwards what it was. *)
Theorem methods_leave_others (py : Platform) self st r (other : loc) :
  st !! self = Some r ->
  other <> self ->
  (forall code, (Response.status self code st).1 !! other = st !! other)
  /\ (forall fields, (Response.set_header self fields st).1 !! other = st !! other)
  /\ (forall v, (Response.content_type py self v st).1 !! other = st !! other)
  /\ (forall obj, (Response.json py self obj st).1 !! other = st !! other)
  /\ (forall body, (Response.send py self body st).1 !! other = st !! other)
  /\ (forall path, (Response.redirect py self path st).1 !! other = st !! other)
  /\ (forall path, (Response.send_file py self path st).1 !! other = st !! other)
  /\ (forall path filename,
        (Response.download py self path filename st).1 !! other = st !! other)
  /\ (forall code, (Response.send_status py self code st).1 !! other = st !! other).
Proof.
  intros H Hother.
  assert (forall r', (<[self := r']> st) !! other = st !! other) as Hframe
    by (intros r'; by apply lookup_insert_ne).
  split; [intros; rewrite (status_run _ _ _ _ H); apply Hframe|].
  split; [intros; rewrite (set_header_run _ _ _ _ H); apply Hframe|].
  split.
  { intros v. rewrite (content_type_run py _ _ _ _ H).
    destruct (Headers.valid_value (resolved py v)); [apply Hframe|done]. }
  split; [intros; rewrite (json_run py _ _ _ _ H); apply Hframe|].
  split.
  { intros body. destruct body;
      first [ rewrite (send_text_run py _ _ _ _ H); apply Hframe
            | unfold Response.send; rewrite (json_run py _ _ _ _ H);
              apply Hframe ]. }
  split.
  { intros path. rewrite (redirect_run py _ _ _ _ H).
    destruct (Headers.valid_value path); apply Hframe. }
  split.
  { intros path. rewrite (send_file_run py _ _ _ _ H).
    destruct (read_text py path); [|done].
    destruct (Headers.valid_value (suffix_type py path)); apply Hframe. }
  split.
  { intros path filename. rewrite (download_run py _ _ _ _ _ H).
    destruct (Headers.valid_value (disposition py path filename)); [|done].
    destruct (read_text py path); [|apply Hframe].
    destruct (Headers.valid_value (suffix_type py path)); apply Hframe. }
  intros code. rewrite (send_status_run py _ _ _ _ H).
  destruct (http_status py !! code); apply Hframe.
Qed.

(** Two responses side by side. *)
Definition two_responses : Store :=
  {[ 1%positive := Std.blank; 2%positive := ResponseClaims.plain_text ]}.

Lemma methods_leave_others_witness :
  (Response.redirect Std.py 1%positive "/x" two_responses).1 !! 2%positive
  = two_responses !! 2%positive.
Proof.
  destruct (methods_leave_others Std.py 1%positive two_responses Std.blank
              2%positive eq_refl)
    as (_ & _ & _ & _ & _ & Hredirect & _).
  - discriminate.
  - exact (Hredirect "/x").
Defined.

End ResponseExtras.

(** ** More of the request facade *)

Module RequestExtras.

(** A request that came through a proxy, and one that came directly. *)
Definition forwarded : RoutedRequest :=
  mkRoutedRequest
    (mkFlaskRequest "http"
       [("Host", "example.com"); ("x-forwarded-for", "203.0.113.7, 10.0.0.1")]
       None (MIMEAccept.contains []))
    (Some "10.0.0.3") None.

Definition direct : RoutedRequest :=
  mkRoutedRequest (RequestClaims.to_host "example.com") (Some "198.51.100.4") None.

(** X11.  [get] on a request does not see the case of the header name. *)
Theorem request_get_ignores_case (self : FlaskRequest) (header : string) :
  Request.get self (Py.lower header) = Request.get self header
  /\ Request.get self (Py.upper header) = Request.get self header.
Proof.
  unfold Request.get. split; apply get_same_key.
  - apply lower_idem.
  - apply lower_upper.
Qed.

(** X12.  [ip] is the value of the first X-Forwarded-For header, whatever
    the case of its name, taken whole: it is what [get] gives for that name,
    a list of addresses included.  Only a request without such a header
    gets the address of the peer. *)
Theorem ip_spec (self : RoutedRequest) :
  Request.ip self
  = match Request.get self "x-forwarded-for" with
    | Some forwarded_for => Some forwarded_for
    | None => remote_addr self
    end.
Proof.
  unfold Request.ip, Request.get.
  rewrite <- (head_getlist "x-forwarded-for").
  rewrite (getlist_same_key "X-Forwarded-For" "x-forwarded-for") by done.
  by destruct (Headers.getlist "x-forwarded-for" (request_headers self)).
Qed.

Example ip_examples :
  Request.ip forwarded = Some "203.0.113.7, 10.0.0.1"
  /\ Request.ip direct = Some "198.51.100.4".
Proof. split; reflexivity. Qed.

End RequestExtras.

(** ** More of [listen], and the registration of handlers *)

Module AppExtras.

(** A server that binds [sys.stdout] to another object and returns. *)
Definition rebinding_server (hostname : string) (port : Z)
  : M GodLike.Process unit :=
  GodLike.set_stdout 1.

(** X13.  Under [verbose=False] the server runs on a process in which
    [sys.stdout] and [sys.stderr] name one new file on the null device that
    is already closed.  When the server returns, [listen] binds the two names
    back to the objects they named at the call, whatever the server bound
    them to; when the server raises, the error leaves [listen] and the
    names stay as the server left them.  Under [verbose=True] no file is
    opened and [listen] does to the process what the server does. *)
Theorem listen_spec (run_simple : string -> Z -> M GodLike.Process unit)
    (port : Z) (hostname : string) (p : GodLike.Process) :
  let serving := ListenClaims.muted p in
  GodLike.sys_stdout serving = GodLike.sys_stderr serving
  /\ GodLike.objects p !! GodLike.sys_stdout serving = None
  /\ GodLike.objects serving !! GodLike.sys_stdout serving
     = Some (GodLike.mkFile GodLike.devnull true [])
  /\ (forall p', run_simple hostname port serving = (p', Return tt) ->
        GodLike.listen run_simple port hostname false p
        = (GodLike.mkProcess (GodLike.objects p')
             (GodLike.sys_stdout p) (GodLike.sys_stderr p),
           Return tt))
  /\ (forall p' e, run_simple hostname port serving = (p', Raise e) ->
        GodLike.listen run_simple port hostname false p = (p', Raise e))
  /\ (forall p' done, run_simple hostname port p = (p', done) ->
        GodLike.listen run_simple port hostname true p = (p', done)).
Proof.
  intros serving. split; [done|]. split.
  { apply not_elem_of_dom. apply is_fresh. }
  split; [apply lookup_insert_eq|]. split; [|split].
  - intros p' Hrun. rewrite ListenClaims.listen_quiet_run.
    fold serving. by rewrite Hrun.
  - intros p' e Hrun. rewrite ListenClaims.listen_quiet_run.
    fold serving. by rewrite Hrun.
  - intros p' done Hrun. rewrite ListenClaims.listen_verbose_run, Hrun.
    by destruct done as [[]|e].
Qed.

Lemma listen_spec_witness :
  GodLike.listen rebinding_server 5000 "localhost" false ListenClaims.console
  = (GodLike.mkProcess
       (GodLike.objects (ListenClaims.muted ListenClaims.console)) 0 1,
     Return tt).
Proof.
  destruct (listen_spec rebinding_server 5000 "localhost" ListenClaims.console)
    as (_ & _ & _ & Hreturn & _).
  apply (Hreturn (GodLike.mkProcess
                    (GodLike.objects (ListenClaims.muted ListenClaims.console))
                    1 2)).
  reflexivity.
Defined.

(** X14.  Under [verbose=False] a server that prints or logs anything at
    all, from any process, makes [listen] raise [ValueError]; nothing is
    written anywhere and both streams are left naming the closed file. *)
Theorem listen_quiet_refuses_every_write (port : Z) (hostname text : string)
    (p : GodLike.Process) :
  GodLike.listen (fun _ _ => GodLike.print text) port hostname false p
  = (ListenClaims.muted p, Raise ValueError)
  /\ GodLike.listen (fun _ _ => GodLike.log text) port hostname false p
     = (ListenClaims.muted p, Raise ValueError).
Proof.
  rewrite !ListenClaims.listen_quiet_run.
  destruct (ListenClaims.muted_refuses_writes p text) as [-> ->]. done.
Qed.

(** An application without rules, and two handlers of one name. *)
Definition no_rules : GodLike.Flask := GodLike.mkFlask [] ∅.

Definition greet : GodLike.Func :=
  GodLike.mkFunc "user"
    (fun _ res => do _ <- Response.send Std.py res (VStr "hello"); ret VNone).


(** X15.  A verb method that succeeds puts one rule at the front of the
    URL map, with the given pattern, which the framework has taken, with
    the name of the handler as endpoint, and with the methods the framework
    gives it: the verb, OPTIONS, and HEAD as well when the verb is GET.  It
    keeps the rules there were.  For a request matched by that rule,
    [route] is therefore the name of the handler and not the pattern. *)
Theorem register_adds_one_rule (fresh_response : FlaskResponse)
    (rule_ok : string -> bool) (verb : string) (app app' : GodLike.Flask)
    (route : string) (func : GodLike.Func) :
  GodLike.register fresh_response rule_ok verb app route func
  = GodLike.Registered app' ->
  rule_ok route = true
  /\ GodLike.url_map app'
     = mkRule route (GodLike.rule_methods [verb]) (GodLike.name func)
         :: GodLike.url_map app
  /\ (forall m, m ∈ GodLike.rule_methods [verb] <->
        m = Py.upper verb \/ m = "OPTIONS"
        \/ (m = "HEAD" /\ Py.upper verb = "GET"))
  /\ GodLike.view_functions app !! GodLike.name func = None
  /\ is_Some (GodLike.view_functions app' !! GodLike.name func)
  /\ forall request : RoutedRequest,
       url_rule request = List.head (GodLike.url_map app') ->
       Request.route request = Return (GodLike.name func).
Proof.
  unfold GodLike.register, GodLike.add_url_rule.
  destruct (rule_ok route); [|done]. cbn [negb].
  destruct (GodLike.view_functions app !! GodLike.name func) eqn:Hview;
    [done|].
  intros [= <-]. cbn [GodLike.url_map GodLike.view_functions].
  split; [done|]. split; [done|]. split.
  { intros m. unfold GodLike.rule_methods. cbn [fmap list_fmap list_to_set].
    destruct (decide ("GET" ∈ _)) as [Hin|Hout].
    - rewrite !elem_of_union, !elem_of_singleton, elem_of_empty.
      apply elem_of_union in Hin as [Hin%elem_of_singleton|[]%elem_of_empty].
      rewrite <- Hin. tauto.
    - rewrite !elem_of_union, !elem_of_singleton, elem_of_empty.
      assert (Py.upper verb <> "GET") as Hne.
      { intros Heq. apply Hout. rewrite Heq. apply elem_of_union_l.
        by apply elem_of_singleton. }
      tauto. }
  split; [done|]. split.
  { rewrite lookup_insert_eq. by eexists. }
  intros request Hrule. unfold Request.route. by rewrite Hrule.
Qed.

(** A request the rule of [greet] has matched. *)
Definition to_user_7 : RoutedRequest :=
  mkRoutedRequest (RequestClaims.to_host "example.com") (Some "198.51.100.4")
    (Some (mkRule "/user/<id>" (GodLike.rule_methods ["GET"]) "user")).

Lemma register_adds_one_rule_witness :
  Request.route to_user_7 = Return "user".
Proof.
  destruct (register_adds_one_rule new_FlaskResponse Std.leading_slash "GET"
              no_rules
              (GodLike.mkFlask
                 [mkRule "/user/<id>" (GodLike.rule_methods ["GET"]) "user"]
                 {[ "user" := GodLike.view new_FlaskResponse greet ]})
              "/user/<id>" greet) as (_ & _ & _ & _ & _ & Hroute).
  - reflexivity.
  - apply (Hroute to_user_7). reflexivity.
Defined.

Example methods_of_the_rules :
  GodLike.rule_methods ["GET"] = {[ "GET"; "HEAD"; "OPTIONS" ]}
  /\ GodLike.rule_methods ["POST"] = {[ "POST"; "OPTIONS" ]}
  /\ GodLike.rule_methods ["OPTIONS"] = {[ "OPTIONS" ]}.
Proof. split; [|split]; vm_compute; reflexivity. Qed.



Example pattern_without_slash :
  GodLike.get new_FlaskResponse Std.leading_slash no_rules "user" greet
  = GodLike.Refused ValueError no_rules.
Proof. reflexivity. Qed.

(** X17.  A view answers with the native response behind a facade that did
    not exist before the request: what the handler returns plays no part,
    an exception of the handler leaves the view as it is, and, when the
    handler changes no object but its own response, every response that
    existed before is afterwards what it was. *)
Theorem view_spec (fresh_response : FlaskResponse) (func : GodLike.Func)
    (request : RoutedRequest) (st : Store) :
  let response := fresh (dom st) in
  let started := <[response := fresh_response]> st in
  st !! response = None
  /\ (forall st' result reply,
        GodLike.call func request response started = (st', Return result) ->
        st' !! response = Some reply ->
        GodLike.view fresh_response func request st = (st', Return reply))
  /\ (forall st' e,
        GodLike.call func request response started = (st', Raise e) ->
        GodLike.view fresh_response func request st = (st', Raise e))
  /\ ((forall other, other <> response ->
         (GodLike.call func request response started).1 !! other
         = started !! other) ->
      forall other, is_Some (st !! other) ->
        (GodLike.view fresh_response func request st).1 !! other = st !! other).
Proof.
  intros response started.
  assert (st !! response = None) as Hnew
    by (apply not_elem_of_dom; apply is_fresh).
  split; [exact Hnew|].
  assert (GodLike.view fresh_response func request st
          = match GodLike.call func request response started with
            | (st', Return _) => flask_response response st'
            | (st', Raise e) => (st', Raise e)
            end) as Hview by reflexivity.
  split; [|split].
  - intros st' result reply Hcall Hreply. rewrite Hview, Hcall.
    by apply flask_response_run.
  - intros st' e Hcall. by rewrite Hview, Hcall.
  - intros Hlocal other [r Hother].
    assert (other <> response) as Hne by (intros ->; congruence).
    specialize (Hlocal other Hne). rewrite Hview.
    destruct (GodLike.call func request response started) as [st' [v|e]];
      cbn [fst] in *.
    + unfold flask_response. destruct (st' !! response); cbn [fst];
        rewrite Hlocal; by apply lookup_insert_ne.
    + rewrite Hlocal. by apply lookup_insert_ne.
Qed.

(** The reply of [greet] on a response as the facade builds it. *)
Definition greeting : FlaskResponse :=
  mkFlaskResponse 200
    [("Content-Type", "text/html; charset=utf-8"); ("Content-Length", "5")]
    "hello".

Lemma view_spec_witness :
  GodLike.view new_FlaskResponse greet RequestExtras.direct Std.new_store
  = (<[2%positive := greeting]> Std.new_store, Return greeting).
Proof.
  destruct (view_spec new_FlaskResponse greet RequestExtras.direct Std.new_store)
    as (_ & Hreply & _).
  apply (Hreply _ VNone); vm_compute; reflexivity.
Defined.

End AppExtras.
